(** * osdep.h: operating-system dependencies of Metamod (jk_botti)

    The header wraps, once for [linux] and once for [_WIN32], the dynamic
    loader, detached thread creation, mutexes and condition variables.
    Every wrapper is a short sequence of platform calls followed by a test
    of what they returned.  The wrappers are embedded below as programs over
    the platform calls they make; the platform calls themselves are given a
    small operational model, written after their documentation, so that the
    wrappers can be run, alone or interleaved with other threads. *)

From Stdlib Require Import ZArith Lia Bool.
From stdpp Require Import base list gmap strings.

(** ** Programs over platform calls *)

(** A thread is identified by its index in the thread pool. *)
Abbreviation tid := nat.

(** The address of a function (the [func] argument of THREAD_CREATE, a
    [REG_CMD_FN]). *)
Abbreviation fnptr := Z.

Section Program.
Context {E : Type -> Type}.

(** A program either returns, or makes a platform call [e] and goes on
    with what the call answered. *)
Inductive prog (R : Type) : Type :=
| Ret (r : R)
| Vis {X : Type} (e : E X) (k : X -> prog R).

Global Arguments Ret {R} r.
Global Arguments Vis {R X} e k.

Fixpoint bind {A B : Type} (p : prog A) (f : A -> prog B) : prog B :=
  match p with
  | Ret r => f r
  | Vis e k => Vis e (fun x => bind (k x) f)
  end.

Definition call {X : Type} (e : E X) : prog X := Vis e Ret.

(** One platform call together with its answer. *)
Record obs : Type := Obs { obs_type : Type; obs_call : E obs_type; obs_resp : obs_type }.

(** [runs p tr r]: [p] returns [r] after the calls and answers of [tr].
    Nothing is assumed of the answers: the relation covers whatever the
    platform may reply. *)
Inductive runs {R : Type} : prog R -> list obs -> R -> Prop :=
| runs_ret (r : R) : runs (Ret r) [] r
| runs_vis {X : Type} (e : E X) (k : X -> prog R) (x : X) (tr : list obs) (r : R) :
    runs (k x) tr r -> runs (Vis e k) (Obs X e x :: tr) r.

(** The run of [p] against an environment that answers each call by [a]. *)
Fixpoint play (a : forall X, E X -> X) {R : Type} (p : prog R) : list obs * R :=
  match p with
  | Ret r => ([], r)
  | Vis e k => let '(tr, r) := play a (k (a _ e)) in (Obs _ e (a _ e) :: tr, r)
  end.
(** [n] successive calls of [p], with their results in order. *)
Fixpoint repeat_call {A : Type} (n : nat) (p : prog A) : prog (list A) :=
  match n with
  | O => Ret []
  | Datatypes.S n' => bind p (fun a => bind (repeat_call n' p) (fun l => Ret (a :: l)))
  end.
End Program.

Arguments prog E R : clear implicits.
Arguments obs E : clear implicits.
Arguments Obs {E} obs_type obs_call obs_resp.

Notation "x <- p ;; k" := (bind p (fun x => k))
  (at level 20, p at level 99, k at level 200).
Notation "' pat <- p ;; k" := (bind p (fun x => match x with pat => k end))
  (at level 20, pat pattern, p at level 99, k at level 200).

(** ** Threads interleaved over a platform *)

(** What a platform call does when a thread makes it. *)
Inductive outcome (S X : Type) : Type :=
| Done (x : X) (s : S) (spawn : option fnptr)
    (* the call returns [x]; [spawn] is the entry point of a thread it created *)
| Internal (s : S)
    (* the call has made progress inside the platform and has not returned *)
| Blocked
    (* the caller stays suspended in the call *)
| Undefined.
    (* the platform documents the behaviour as undefined, or the call is
       outside what is modelled *)

Arguments Done {S X} x s spawn.
Arguments Internal {S X} s.
Arguments Blocked {S X}.
Arguments Undefined {S X}.

Section Pool.
Context {E : Type -> Type} {S R : Type}.

(** [os_step t fresh choice e s]: thread [t] makes call [e] in state [s];
    [fresh] is the identifier a thread created by the call receives and
    [choice] resolves what the platform leaves unspecified. *)
Variable os_step : tid -> tid -> nat -> forall X, E X -> S -> outcome S X.

(** The code behind a function pointer. *)
Variable code : fnptr -> prog E R.

Record config : Type := Config { os : S; pool : list (prog E R) }.

Inductive label : Type :=
| L_call (t : tid) (o : obs E) (spawn : option fnptr)
| L_tau (t : tid).

Inductive step_result : Type :=
| Stepped (l : label) (c : config)
| Finished
| Waiting
| UB
| NoThread.

Definition spawned (sp : option fnptr) : list (prog E R) :=
  match sp with Some f => [code f] | None => [] end.

(** One step of thread [t]. *)
Definition pool_step (t : tid) (choice : nat) (c : config) : step_result :=
  match (pool c !! t : option (prog E R)) with
  | None => NoThread
  | Some (Ret _) => Finished
  | Some (Vis e k) =>
      match os_step t (length (pool c)) choice _ e (os c) with
      | Done x s sp =>
          Stepped (L_call t (Obs _ e x) sp)
                  (Config s (<[t := k x]> (pool c) ++ spawned sp))
      | Internal s => Stepped (L_tau t) (Config s (pool c))
      | Blocked => Waiting
      | Undefined => UB
      end
  end.

(** Executions: any interleaving of steps that are defined. *)
Inductive exec : config -> list label -> config -> Prop :=
| exec_nil (c : config) : exec c [] c
| exec_cons (t : tid) (choice : nat) (c c1 c2 : config) (l : label) (ls : list label) :
    pool_step t choice c = Stepped l c1 -> exec c1 ls c2 -> exec c (l :: ls) c2.

(** The execution that follows a given schedule. *)
Fixpoint run_sched (sched : list (tid * nat)) (c : config) : option (list label * config) :=
  match sched with
  | [] => Some ([], c)
  | (t, choice) :: sched' =>
      match pool_step t choice c with
      | Stepped l c1 =>
          match run_sched sched' c1 with
          | Some (ls, c2) => Some (l :: ls, c2)
          | None => None
          end
      | _ => None
      end
  end.

(** The labels and the final configuration of that execution. *)
Definition run_labels (sched : list (tid * nat)) (c : config) : list label :=
  match run_sched sched c with
  | Some (ls, _) => ls
  | None => []
  end.

Definition run_final (sched : list (tid * nat)) (c : config) : config :=
  match run_sched sched c with
  | Some (_, c') => c'
  | None => c
  end.

(** A thread running alone, until it returns or cannot go on (a thread
    it creates is not run). *)
Inductive solo_result : Type :=
| Returned (r : R) (s : S)
| Suspended (s : S)
| Fault.

Fixpoint solo (t : tid) (p : prog E R) (s : S) : solo_result :=
  match p with
  | Ret r => Returned r s
  | Vis e k =>
      match os_step t 0%nat 0%nat _ e s with
      | Done x s' _ => solo t (k x) s'
      | Internal s' => Suspended s'
      | Blocked => Suspended s
      | Undefined => Fault
      end
  end.

(** The calls of thread [t] among the labels of an execution, each with
    the entry point of the thread it created, if any. *)
Definition call_of (t : tid) (l : label) : option (obs E * option fnptr) :=
  match l with
  | L_call t' o sp => if decide (t' = t) then Some (o, sp) else None
  | L_tau _ => None
  end.

Definition tview (t : tid) (ls : list label) : list (obs E * option fnptr) :=
  omap (call_of t) ls.

(** The entry points of the threads that thread [t] created. *)
Definition spawned_by (t : tid) (ls : list label) : list fnptr :=
  omap snd (tview t ls).

(** The platform answers [x] to call [e] of thread [t] in some state. *)
Definition answered (t : tid) {X : Type} (e : E X) (x : X) (sp : option fnptr) : Prop :=
  exists fresh choice s s', os_step t fresh choice X e s = Done x s' sp.

(** [tpath t p tr p']: by the calls [tr], each answered by the platform,
    thread [t] gets from program [p] to program [p']. *)
Fixpoint tpath (t : tid) (p : prog E R) (tr : list (obs E * option fnptr)) (p' : prog E R)
    {struct tr} : Prop :=
  match tr with
  | [] => p = p'
  | (o, sp) :: tr' =>
      match p with
      | Ret _ => False
      | Vis e k => exists x, o = Obs _ e x /\ answered t e x sp /\ tpath t (k x) tr' p'
      end
  end.

(** The platform state changes by a call of thread [t]. *)
Definition os_moves (t : tid) (s s' : S) : Prop :=
  exists fresh choice X (e : E X),
    (exists x sp, os_step t fresh choice X e s = Done x s' sp)
    \/ os_step t fresh choice X e s = Internal s'.

(** The labels that satisfy [f]. *)
Definition count (f : label -> bool) (ls : list label) : nat :=
  length (List.filter f ls).
End Pool.

Arguments config E S R : clear implicits.
Arguments label E : clear implicits.
Arguments step_result E S R : clear implicits.
Arguments solo_result S R : clear implicits.

(** C truth values: [!x] and [a == b] as an [int]. *)
Definition c_not (x : Z) : Z := if (x =? 0)%Z then 1%Z else 0%Z.
Definition c_eq (a b : Z) : Z := if (a =? b)%Z then 1%Z else 0%Z.

(** What the loader finds on disk: a module, the address it is mapped at,
    whether its initialisation succeeds, and the symbols it exports. *)
Record module_image : Type :=
  Image { img_base : Z; img_init_ok : bool; img_exports : gmap string Z }.

(** ** The [_WIN32] backing (osdep.h, the [#elif defined(_WIN32)] branches) *)

Module Win32.
Local Open Scope Z_scope.

Abbreviation int := Z.
Abbreviation HANDLE := Z.
Abbreviation DWORD := Z.
Abbreviation BOOL := Z.

(** Constants of the platform headers. *)
Definition NULL : Z := 0.
Definition FALSE : BOOL := 0.
Definition TRUE : BOOL := 1.
Definition INFINITE : DWORD := 4294967295.
Definition WAIT_OBJECT_0 : DWORD := 0.
Definition WAIT_TIMEOUT : DWORD := 258.
Definition WAIT_FAILED : DWORD := 4294967295.
Definition ERROR_INVALID_HANDLE : DWORD := 6.
Definition ERROR_NOT_ENOUGH_MEMORY : DWORD := 8.
Definition ERROR_MOD_NOT_FOUND : DWORD := 126.
Definition ERROR_PROC_NOT_FOUND : DWORD := 127.
Definition ERROR_DLL_INIT_FAILED : DWORD := 1114.

(** osdep.h *)
Abbreviation DLHANDLE := HANDLE.
Abbreviation DLFUNC := Z.
Abbreviation THREAD_T := DWORD.
Abbreviation COND_T := HANDLE.
Definition THREAD_OK : int := 0.

(** The calls the wrappers make.  A [MUTEX_T *] is the address of the
    CRITICAL_SECTION.  [CreateThread func tid] stands for
    [CreateThread(NULL, 0, func, NULL, 0, &tid)] and answers the handle
    together with the content of [tid] after the call; [CreateEvent] keeps
    the two arguments that are not NULL.  [str_GetLastError] and
    [META_ERROR] are Metamod's own (osdep.cpp, log_meta.h); they are calls
    here because their code is elsewhere. *)
Inductive oscall : Type -> Type :=
| LoadLibrary (filename : string) : oscall HANDLE
| GetProcAddress (handle : HANDLE) (name : string) : oscall Z
| FreeLibrary (handle : HANDLE) : oscall BOOL
| str_GetLastError : oscall string
| META_ERROR (fmt arg : string) : oscall unit
| CreateThread (func : fnptr) (tid : DWORD) : oscall (HANDLE * DWORD)
| InitializeCriticalSection (cs : Z) : oscall unit
| EnterCriticalSection (cs : Z) : oscall unit
| LeaveCriticalSection (cs : Z) : oscall unit
| CreateEvent (bManualReset bInitialState : BOOL) : oscall HANDLE
| SetEvent (hEvent : HANDLE) : oscall BOOL
| WaitForSingleObject (hHandle : HANDLE) (dwMilliseconds : DWORD) : oscall DWORD.

(** *** The wrappers *)

Definition DLOPEN (filename : string) : prog oscall DLHANDLE :=
  call (LoadLibrary filename).

Definition DLSYM (handle : DLHANDLE) (str : string) : prog oscall DLFUNC :=
  call (GetProcAddress handle str).

Definition DLCLOSE (handle : DLHANDLE) : prog oscall int :=
  r <- call (FreeLibrary handle) ;;
  Ret (c_not r).

Definition DLERROR : prog oscall string :=
  call str_GetLastError.

(** [tid] is the content of [*tid] at the call; the result carries its
    content at the return. *)
Definition THREAD_CREATE (tid : THREAD_T) (func : fnptr) : prog oscall (int * THREAD_T) :=
  '(ret, tid) <- call (CreateThread func tid) ;;
  _ <- (if ret =? NULL
        then msg <- call str_GetLastError ;;
             call (META_ERROR "Failure starting thread: %s" msg)
        else Ret tt) ;;
  Ret (c_eq ret NULL, tid).

Definition MUTEX_INIT (mutex : Z) : prog oscall int :=
  _ <- call (InitializeCriticalSection mutex) ;;
  Ret THREAD_OK.

Definition MUTEX_LOCK (mutex : Z) : prog oscall int :=
  _ <- call (EnterCriticalSection mutex) ;;
  Ret THREAD_OK.

Definition MUTEX_UNLOCK (mutex : Z) : prog oscall int :=
  _ <- call (LeaveCriticalSection mutex) ;;
  Ret THREAD_OK.

(** The result carries the handle stored in [*cond]. *)
Definition COND_INIT : prog oscall (int * COND_T) :=
  cond <- call (CreateEvent FALSE FALSE) ;;
  if cond =? NULL
  then msg <- call str_GetLastError ;;
       _ <- call (META_ERROR "cond_init failed: %s" msg) ;;
       Ret (-1, cond)
  else Ret (0, cond).

(** [cond] is the handle read from [*cond]. *)
Definition COND_WAIT (cond : COND_T) (mutex : Z) : prog oscall int :=
  _ <- call (LeaveCriticalSection mutex) ;;
  ret <- call (WaitForSingleObject cond INFINITE) ;;
  _ <- call (EnterCriticalSection mutex) ;;
  if ret =? WAIT_OBJECT_0
  then Ret 0
  else msg <- call str_GetLastError ;;
       _ <- call (META_ERROR "cond_wait failed: %s" msg) ;;
       Ret (-1).

Definition COND_SIGNAL (cond : COND_T) : prog oscall int :=
  ret <- call (SetEvent cond) ;;
  if ret =? 0
  then msg <- call str_GetLastError ;;
       _ <- call (META_ERROR "cond_signal failed: %s" msg) ;;
       Ret (-1)
  else Ret 0.

(** *** The platform, after the Win32 documentation *)

(** A kernel object behind a handle: an event, manual- or auto-reset,
    signaled or not; or a thread. *)
Inductive kobject : Type :=
| KEvent (manual_reset signaled : bool)
| KThread (id : tid).

(** A critical section is free, or owned by a thread that entered it
    [S recursion] times. *)
Inductive cs_state : Type :=
| CsFree
| CsOwned (owner : tid) (recursion : nat).

Record os_state : Type := State {
  handles : list kobject;          (* handle [h] designates entry [h - 1] *)
  handle_limit : nat;              (* size of the handle table *)
  threads_left : nat;              (* threads the process may still create *)
  critsecs : gmap Z cs_state;      (* initialised critical sections, by address *)
  disk : gmap string module_image;
  loaded : gmap Z (nat * gmap string Z);
                                   (* loaded modules: references beyond the first, exports *)
  last_error : DWORD;
  meta_log : list (string * string)
}.

Definition set_handles (f : list kobject -> list kobject) (s : os_state) : os_state :=
  State (f (handles s)) (handle_limit s) (threads_left s) (critsecs s) (disk s)
        (loaded s) (last_error s) (meta_log s).
Definition set_threads_left (n : nat) (s : os_state) : os_state :=
  State (handles s) (handle_limit s) n (critsecs s) (disk s)
        (loaded s) (last_error s) (meta_log s).
Definition set_critsecs (f : gmap Z cs_state -> gmap Z cs_state) (s : os_state) : os_state :=
  State (handles s) (handle_limit s) (threads_left s) (f (critsecs s)) (disk s)
        (loaded s) (last_error s) (meta_log s).
Definition set_loaded (f : gmap Z (nat * gmap string Z) -> gmap Z (nat * gmap string Z))
    (s : os_state) : os_state :=
  State (handles s) (handle_limit s) (threads_left s) (critsecs s) (disk s)
        (f (loaded s)) (last_error s) (meta_log s).
Definition set_last_error (e : DWORD) (s : os_state) : os_state :=
  State (handles s) (handle_limit s) (threads_left s) (critsecs s) (disk s)
        (loaded s) e (meta_log s).
Definition set_meta_log (f : list (string * string) -> list (string * string))
    (s : os_state) : os_state :=
  State (handles s) (handle_limit s) (threads_left s) (critsecs s) (disk s)
        (loaded s) (last_error s) (f (meta_log s)).

Definition slot (h : HANDLE) : nat := Z.to_nat (h - 1).

Definition kobj (s : os_state) (h : HANDLE) : option kobject :=
  if 0 <? h then handles s !! slot h else None.

Definition new_handle (s : os_state) : HANDLE := Z.of_nat (Datatypes.S (length (handles s))).

Definition table_full (s : os_state) : bool := (handle_limit s <=? length (handles s))%nat.

(** Modelled from the spec: [str_GetLastError] is declared in osdep.h
    (line 131) and defined elsewhere; it describes the most recent failure.
    The text it gives for an error code. *)
Definition error_text (e : DWORD) : string :=
  if e =? ERROR_INVALID_HANDLE then "The handle is invalid."
  else if e =? ERROR_NOT_ENOUGH_MEMORY then "Not enough storage is available to process this command."
  else if e =? ERROR_MOD_NOT_FOUND then "The specified module could not be found."
  else if e =? ERROR_PROC_NOT_FOUND then "The specified procedure could not be found."
  else if e =? ERROR_DLL_INIT_FAILED then "A dynamic link library (DLL) initialization routine failed."
  else "Unknown error".

(** What each call does.
    - Loader: LoadLibrary maps the module (or counts one more reference)
      and answers its base address, NULL when the file is missing or its
      initialisation fails; GetProcAddress answers the exported address,
      NULL for a name that is not exported; FreeLibrary answers non-zero
      on success, zero for a handle that is not loaded.
    - Threads: CreateThread answers NULL when the process can create no
      more threads or handles; otherwise the new thread starts at [func].
    - Critical sections are owned by a thread and recursive; entering one
      that another thread owns blocks; leaving one that the caller does not
      own, and using or re-initialising one out of turn, is undefined.
    - Events: SetEvent sets the event signaled.  An auto-reset event stays
      signaled until a single wait on it is released, and is then reset; if
      no thread is waiting it stays signaled.  A manual-reset event stays
      signaled.  WaitForSingleObject with INFINITE blocks while the event
      is not signaled and answers WAIT_FAILED for a handle that is none. *)
Definition os_step (t fresh : tid) (choice : nat) (X : Type) (e : oscall X) (s : os_state)
    : outcome os_state X :=
  match e in oscall X return outcome os_state X with
  | LoadLibrary filename =>
      match disk s !! filename with
      | None => Done NULL (set_last_error ERROR_MOD_NOT_FOUND s) None
      | Some img =>
          if img_init_ok img then
            let refs := match loaded s !! img_base img with
                        | Some (n, _) => Datatypes.S n
                        | None => 0%nat
                        end in
            Done (img_base img)
                 (set_loaded (insert (img_base img) (refs, img_exports img)) s) None
          else Done NULL (set_last_error ERROR_DLL_INIT_FAILED s) None
      end
  | GetProcAddress handle name =>
      match loaded s !! handle with
      | None => Done NULL (set_last_error ERROR_MOD_NOT_FOUND s) None
      | Some (_, exports) =>
          match exports !! name with
          | Some f => Done f s None
          | None => Done NULL (set_last_error ERROR_PROC_NOT_FOUND s) None
          end
      end
  | FreeLibrary handle =>
      match loaded s !! handle with
      | None => Done FALSE (set_last_error ERROR_MOD_NOT_FOUND s) None
      | Some (O, _) => Done TRUE (set_loaded (delete handle) s) None
      | Some (Datatypes.S n, exports) =>
          Done TRUE (set_loaded (insert handle (n, exports)) s) None
      end
  | str_GetLastError => Done (error_text (last_error s)) s None
  | META_ERROR fmt arg => Done tt (set_meta_log (fun l => l ++ [(fmt, arg)]) s) None
  | CreateThread func tid =>
      match threads_left s with
      | O => Done (NULL, tid) (set_last_error ERROR_NOT_ENOUGH_MEMORY s) None
      | Datatypes.S n =>
          if table_full s
          then Done (NULL, tid) (set_last_error ERROR_NOT_ENOUGH_MEMORY s) None
          else Done (new_handle s, Z.of_nat fresh)
                    (set_threads_left n (set_handles (fun l => l ++ [KThread fresh]) s))
                    (Some func)
      end
  | InitializeCriticalSection cs =>
      match critsecs s !! cs with
      | None => Done tt (set_critsecs (insert cs CsFree) s) None
      | Some _ => Undefined
      end
  | EnterCriticalSection cs =>
      match critsecs s !! cs with
      | None => Undefined
      | Some CsFree => Done tt (set_critsecs (insert cs (CsOwned t 0)) s) None
      | Some (CsOwned o n) =>
          if decide (o = t)
          then Done tt (set_critsecs (insert cs (CsOwned t (Datatypes.S n))) s) None
          else Blocked
      end
  | LeaveCriticalSection cs =>
      match critsecs s !! cs with
      | Some (CsOwned o n) =>
          if decide (o = t)
          then Done tt (set_critsecs (insert cs (match n with
                                                 | O => CsFree
                                                 | Datatypes.S n' => CsOwned t n'
                                                 end)) s) None
          else Undefined
      | _ => Undefined
      end
  | CreateEvent bManualReset bInitialState =>
      if table_full s
      then Done NULL (set_last_error ERROR_NOT_ENOUGH_MEMORY s) None
      else Done (new_handle s)
                (set_handles (fun l => l ++ [KEvent (negb (bManualReset =? 0))
                                                    (negb (bInitialState =? 0))]) s)
                None
  | SetEvent hEvent =>
      match kobj s hEvent with
      | Some (KEvent manual _) =>
          Done TRUE (set_handles (<[slot hEvent := KEvent manual true]>) s) None
      | _ => Done FALSE (set_last_error ERROR_INVALID_HANDLE s) None
      end
  | WaitForSingleObject hHandle dwMilliseconds =>
      match kobj s hHandle with
      | Some (KEvent manual true) =>
          Done WAIT_OBJECT_0 (set_handles (<[slot hHandle := KEvent manual manual]>) s) None
      | Some (KEvent _ false) =>
          if dwMilliseconds =? INFINITE then Blocked else Done WAIT_TIMEOUT s None
      | Some (KThread _) => Undefined
      | None => Done WAIT_FAILED (set_last_error ERROR_INVALID_HANDLE s) None
      end
  end.

(** Thread [t] owns the critical section at [mutex]. *)
Definition holds (t : tid) (mutex : Z) (s : os_state) : Prop :=
  exists n, critsecs s !! mutex = Some (CsOwned t n).

(** [hEvent] is an auto-reset event. *)
Definition auto_reset (s : os_state) (hEvent : HANDLE) : Prop :=
  exists b, kobj s hEvent = Some (KEvent false b).

Definition signaled (s : os_state) (hEvent : HANDLE) : bool :=
  match kobj s hEvent with
  | Some (KEvent _ b) => b
  | _ => false
  end.

(** Labels of an execution: a successful [SetEvent] on [hEvent], and a
    wait on [hEvent] that the event released. *)
Definition is_set (hEvent : HANDLE) (l : label oscall) : bool :=
  match l with
  | L_call _ (Obs _ e x) _ =>
      match e in oscall X return X -> bool with
      | SetEvent h => fun x => (h =? hEvent) && negb (x =? 0)
      | _ => fun _ => false
      end x
  | L_tau _ => false
  end.

Definition is_wake (hEvent : HANDLE) (l : label oscall) : bool :=
  match l with
  | L_call _ (Obs _ e x) _ =>
      match e in oscall X return X -> bool with
      | WaitForSingleObject h _ => fun x => (h =? hEvent) && (x =? WAIT_OBJECT_0)
      | _ => fun _ => false
      end x
  | L_tau _ => false
  end.

(** Whether a call reported failure, by the call's own convention. *)
Definition native_failed (o : obs oscall) : bool :=
  match o with
  | Obs _ e x =>
      match e in oscall X return X -> bool with
      | FreeLibrary _ => fun x => x =? 0
      | CreateThread _ _ => fun x => fst x =? NULL
      | CreateEvent _ _ => fun x => x =? NULL
      | SetEvent _ => fun x => x =? 0
      | WaitForSingleObject _ _ => fun x => negb (x =? WAIT_OBJECT_0)
      | _ => fun _ => false
      end x
  end.

(** Whether a call is a [META_ERROR] with a message. *)
Definition is_log (o : obs oscall) : bool :=
  match o with
  | Obs _ e _ =>
      match e with
      | META_ERROR fmt _ => match fmt with EmptyString => false | String _ _ => true end
      | _ => false
      end
  end.

(** The format of the message a call logs, if it is a [META_ERROR]. *)
Definition log_fmt (o : obs oscall * option fnptr) : option string :=
  match o with
  | (Obs _ e _, _) =>
      match e with
      | META_ERROR fmt _ => Some fmt
      | _ => None
      end
  end.

(** Whether a call is a [SetEvent]. *)
Definition is_native_signal (o : obs oscall) : bool :=
  match o with
  | Obs _ e _ =>
      match e with
      | SetEvent _ => true
      | _ => false
      end
  end.
End Win32.

(** ** The [linux] backing (osdep.h, the [#ifdef linux] branches) *)

Module Linux.
Local Open Scope Z_scope.

Abbreviation int := Z.

(** Constants of the platform headers. *)
Definition NULL : Z := 0.
Definition RTLD_NOW : int := 2.
Definition EPERM : int := 1.
Definition ESRCH : int := 3.
Definition EAGAIN : int := 11.
Definition ENOMEM : int := 12.
Definition EINVAL : int := 22.
Definition EDEADLK : int := 35.

(** osdep.h *)
Abbreviation DLHANDLE := Z.
Abbreviation DLFUNC := Z.
Abbreviation THREAD_T := Z.
Definition THREAD_OK : int := 0.

(** The calls the wrappers make.  A [MUTEX_T *] and a [COND_T *] are the
    addresses of the pthread objects.  [pthread_create func tid] stands for
    [pthread_create(&tid, NULL, func, NULL)] and answers the result
    together with the content of [tid] after the call; the attributes of
    [pthread_mutex_init] and [pthread_cond_init] are NULL.  [META_ERROR] is
    Metamod's own (log_meta.h). *)
Inductive oscall : Type -> Type :=
| dlopen (filename : string) (flag : int) : oscall Z
| dlsym (handle : Z) (symbol : string) : oscall Z
| dlclose (handle : Z) : oscall int
| dlerror : oscall (option string)
| strerror (errnum : int) : oscall string
| META_ERROR (fmt arg : string) : oscall unit
| pthread_create (func : fnptr) (tid : Z) : oscall (int * Z)
| pthread_detach (thread : Z) : oscall int
| pthread_mutex_init (mutex : Z) : oscall int
| pthread_mutex_lock (mutex : Z) : oscall int
| pthread_mutex_unlock (mutex : Z) : oscall int
| pthread_cond_init (cond : Z) : oscall int
| pthread_cond_wait (cond mutex : Z) : oscall int
| pthread_cond_signal (cond : Z) : oscall int.

(** *** The wrappers *)

Definition DLOPEN (filename : string) : prog oscall DLHANDLE :=
  call (dlopen filename RTLD_NOW).

Definition DLSYM (handle : DLHANDLE) (str : string) : prog oscall DLFUNC :=
  call (dlsym handle str).

Definition DLCLOSE (handle : DLHANDLE) : prog oscall int :=
  call (dlclose handle).

Definition DLERROR : prog oscall (option string) :=
  call dlerror.

(** [tid] is the content of [*tid] at the call; the result carries its
    content at the return. *)
Definition THREAD_CREATE (tid : THREAD_T) (func : fnptr) : prog oscall (int * THREAD_T) :=
  '(ret, tid) <- call (pthread_create func tid) ;;
  if negb (ret =? 0)
  then msg <- call (strerror ret) ;;
       _ <- call (META_ERROR "Failure starting thread: %s" msg) ;;
       Ret (ret, tid)
  else ret <- call (pthread_detach tid) ;;
       _ <- (if negb (ret =? 0)
             then msg <- call (strerror ret) ;;
                  call (META_ERROR "Failure detaching thread: %s" msg)
             else Ret tt) ;;
       Ret (ret, tid).

Definition MUTEX_INIT (mutex : Z) : prog oscall int :=
  ret <- call (pthread_mutex_init mutex) ;;
  _ <- (if negb (ret =? THREAD_OK)
        then msg <- call (strerror ret) ;;
             call (META_ERROR "mutex_init failed: %s" msg)
        else Ret tt) ;;
  Ret ret.

Definition MUTEX_LOCK (mutex : Z) : prog oscall int :=
  ret <- call (pthread_mutex_lock mutex) ;;
  _ <- (if negb (ret =? THREAD_OK)
        then msg <- call (strerror ret) ;;
             call (META_ERROR "mutex_lock failed: %s" msg)
        else Ret tt) ;;
  Ret ret.

Definition MUTEX_UNLOCK (mutex : Z) : prog oscall int :=
  ret <- call (pthread_mutex_unlock mutex) ;;
  _ <- (if negb (ret =? THREAD_OK)
        then msg <- call (strerror ret) ;;
             call (META_ERROR "mutex_unlock failed: %s" msg)
        else Ret tt) ;;
  Ret ret.

Definition COND_INIT (cond : Z) : prog oscall int :=
  ret <- call (pthread_cond_init cond) ;;
  _ <- (if negb (ret =? THREAD_OK)
        then msg <- call (strerror ret) ;;
             call (META_ERROR "cond_init failed: %s" msg)
        else Ret tt) ;;
  Ret ret.

Definition COND_WAIT (cond mutex : Z) : prog oscall int :=
  ret <- call (pthread_cond_wait cond mutex) ;;
  _ <- (if negb (ret =? THREAD_OK)
        then msg <- call (strerror ret) ;;
             call (META_ERROR "cond_wait failed: %s" msg)
        else Ret tt) ;;
  Ret ret.

Definition COND_SIGNAL (cond : Z) : prog oscall int :=
  ret <- call (pthread_cond_signal cond) ;;
  _ <- (if negb (ret =? THREAD_OK)
        then msg <- call (strerror ret) ;;
             call (META_ERROR "cond_signal failed: %s" msg)
        else Ret tt) ;;
  Ret ret.

(** *** The platform, after the pthread and dl manual pages and glibc *)

(** A mutex is of the default kind, which MUTEX_INIT creates, or of the
    error-checking kind (PTHREAD_MUTEX_ERRORCHECK), which other code of the
    process can create and hand to the wrappers. *)
Inductive mutex_state : Type :=
| MFree
| MLocked (owner : tid)
| MCheckFree
| MCheckLocked (owner : tid).

(** A thread inside [pthread_cond_wait]: the mutex it released, and
    whether a signal has restarted it. *)
Record cv_waiter : Type :=
  CvWaiter { w_thread : tid; w_mutex : Z; w_woken : bool }.

Inductive thread_state : Type :=
| Joinable
| Detached.

(** An address that [mutexes] or [conds] does not list holds zeroes: under
    glibc that is the static initialiser of either object, a free mutex of
    the default kind and a condition variable without waiters. *)
Record os_state : Type := State {
  mutexes : gmap Z mutex_state;        (* the mutexes in use, by address *)
  conds : gmap Z (list cv_waiter);     (* the condition variables in use *)
  thr : gmap nat thread_state;         (* threads made by pthread_create *)
  threads_left : nat;                  (* threads the process may still create *)
  disk : gmap string module_image;
  loaded : gmap Z (nat * gmap string Z);
                                       (* loaded objects: references beyond the first, exports *)
  dl_error : option string;            (* what dlerror() reports next *)
  meta_log : list (string * string)
}.

Definition set_mutexes (f : gmap Z mutex_state -> gmap Z mutex_state) (s : os_state) : os_state :=
  State (f (mutexes s)) (conds s) (thr s) (threads_left s) (disk s) (loaded s)
        (dl_error s) (meta_log s).
Definition set_conds (f : gmap Z (list cv_waiter) -> gmap Z (list cv_waiter))
    (s : os_state) : os_state :=
  State (mutexes s) (f (conds s)) (thr s) (threads_left s) (disk s) (loaded s)
        (dl_error s) (meta_log s).
Definition set_thr (f : gmap nat thread_state -> gmap nat thread_state) (s : os_state) : os_state :=
  State (mutexes s) (conds s) (f (thr s)) (threads_left s) (disk s) (loaded s)
        (dl_error s) (meta_log s).
Definition set_threads_left (n : nat) (s : os_state) : os_state :=
  State (mutexes s) (conds s) (thr s) n (disk s) (loaded s) (dl_error s) (meta_log s).
Definition set_loaded (f : gmap Z (nat * gmap string Z) -> gmap Z (nat * gmap string Z))
    (s : os_state) : os_state :=
  State (mutexes s) (conds s) (thr s) (threads_left s) (disk s) (f (loaded s))
        (dl_error s) (meta_log s).
Definition set_dl_error (e : option string) (s : os_state) : os_state :=
  State (mutexes s) (conds s) (thr s) (threads_left s) (disk s) (loaded s) e (meta_log s).
Definition set_meta_log (f : list (string * string) -> list (string * string))
    (s : os_state) : os_state :=
  State (mutexes s) (conds s) (thr s) (threads_left s) (disk s) (loaded s)
        (dl_error s) (f (meta_log s)).

(** The text [strerror] gives for an error number. *)
Definition strerror_text (e : int) : string :=
  if e =? EPERM then "Operation not permitted"
  else if e =? ESRCH then "No such process"
  else if e =? EAGAIN then "Resource temporarily unavailable"
  else if e =? ENOMEM then "Cannot allocate memory"
  else if e =? EINVAL then "Invalid argument"
  else if e =? EDEADLK then "Resource deadlock avoided"
  else "Unknown error".

Definition is_waiter (t : tid) (w : cv_waiter) : bool := Nat.eqb (w_thread w) t.

Definition sleeping (w : cv_waiter) : bool := negb (w_woken w).

Definition wake (w : cv_waiter) : cv_waiter := CvWaiter (w_thread w) (w_mutex w) true.

(** Restart the [n]-th of the waiters that no signal has restarted yet. *)
Fixpoint wake_nth (n : nat) (ws : list cv_waiter) : list cv_waiter :=
  match ws with
  | [] => []
  | w :: ws' =>
      if w_woken w then w :: wake_nth n ws'
      else match n with
           | O => wake w :: ws'
           | Datatypes.S n' => w :: wake_nth n' ws'
           end
  end.

Definition thread_of (th : Z) : option nat := if 0 <=? th then Some (Z.to_nat th) else None.

(** The waiters of the condition variable at [cond]. *)
Definition waiters (s : os_state) (cond : Z) : list cv_waiter :=
  match conds s !! cond with
  | Some ws => ws
  | None => []
  end.

(** The name of the loaded object behind [handle], which the loader puts in
    front of its error texts: the file name the object was opened under
    (when the module is on disk under several names, the first of them). *)
Definition object_name (s : os_state) (handle : Z) : string :=
  match List.find (fun fi => img_base fi.2 =? handle) (map_to_list (disk s)) with
  | Some fi => fi.1
  | None => EmptyString
  end.

(** What each call does.
    - Loader: dlopen maps the object (or counts one more reference) and
      answers its handle, NULL on failure; dlsym answers the address of the
      symbol, NULL when the object has no such symbol; dlclose answers 0 on
      success.  Each failure leaves a text for dlerror and each success
      clears the text that was pending.  A handle that is not open (never
      opened, or closed since) is a dangling pointer: dlsym and dlclose on
      it are undefined.
    - Threads: pthread_create answers EAGAIN when the process can create
      no more threads; otherwise the new thread, joinable, starts at
      [func].  pthread_detach answers EINVAL for a thread that is not
      joinable and ESRCH for no thread.
    - Initialisation: pthread_mutex_init and pthread_cond_init answer 0, or
      ENOMEM when the platform lacks the memory, which the program cannot
      know beforehand (a [choice] other than 0); initialising an object
      that is in use is undefined.
    - A mutex of the default kind: locking one that is locked blocks, also
      for its owner; unlocking one that the caller does not hold is
      undefined.  A mutex of the error-checking kind: locking it again
      answers EDEADLK to its owner, and unlocking it answers EPERM to a
      thread that does not hold it.
    - Condition variables: pthread_cond_wait, called with the mutex held,
      releases the mutex and joins the waiters in one step, stays blocked
      until a signal restarts it, and returns 0 once it has the mutex
      again.  Called without the mutex held it answers EPERM at once and
      touches nothing when the mutex is error-checking, and is undefined
      when the mutex is of the default kind.  pthread_cond_signal restarts
      exactly one of the waiters, if there is any, which one being
      unspecified ([choice]); with no waiter nothing happens.  Both answer
      no other error.  Wakeups without a signal are not modelled. *)
Definition os_step (t fresh : tid) (choice : nat) (X : Type) (e : oscall X) (s : os_state)
    : outcome os_state X :=
  match e in oscall X return outcome os_state X with
  | dlopen filename flag =>
      match disk s !! filename with
      | None =>
          Done NULL
               (set_dl_error
                  (Some (filename
                         +:+ ": cannot open shared object file: No such file or directory")) s)
               None
      | Some img =>
          if img_init_ok img then
            let refs := match loaded s !! img_base img with
                        | Some (n, _) => Datatypes.S n
                        | None => 0%nat
                        end in
            Done (img_base img)
                 (set_dl_error None
                    (set_loaded (insert (img_base img) (refs, img_exports img)) s)) None
          else Done NULL (set_dl_error (Some (filename +:+ ": invalid ELF header")) s) None
      end
  | dlsym handle symbol =>
      match loaded s !! handle with
      | None => Undefined
      | Some (_, exports) =>
          match exports !! symbol with
          | Some f => Done f (set_dl_error None s) None
          | None =>
              Done NULL
                   (set_dl_error
                      (Some (object_name s handle +:+ ": undefined symbol: " +:+ symbol)) s)
                   None
          end
      end
  | dlclose handle =>
      match loaded s !! handle with
      | None => Undefined
      | Some (O, _) => Done 0 (set_dl_error None (set_loaded (delete handle) s)) None
      | Some (Datatypes.S n, exports) =>
          Done 0 (set_dl_error None (set_loaded (insert handle (n, exports)) s)) None
      end
  | dlerror => Done (dl_error s) (set_dl_error None s) None
  | strerror errnum => Done (strerror_text errnum) s None
  | META_ERROR fmt arg => Done tt (set_meta_log (fun l => l ++ [(fmt, arg)]) s) None
  | pthread_create func tid =>
      match threads_left s with
      | O => Done (EAGAIN, tid) s None
      | Datatypes.S n =>
          Done (0, Z.of_nat fresh)
               (set_threads_left n (set_thr (insert fresh Joinable) s))
               (Some func)
      end
  | pthread_detach thread =>
      match thread_of thread with
      | None => Done ESRCH s None
      | Some n =>
          match thr s !! n with
          | Some Joinable => Done 0 (set_thr (insert n Detached) s) None
          | Some Detached => Done EINVAL s None
          | None => Done ESRCH s None
          end
      end
  | pthread_mutex_init mutex =>
      match mutexes s !! mutex with
      | None =>
          match choice with
          | O => Done 0 (set_mutexes (insert mutex MFree) s) None
          | Datatypes.S _ => Done ENOMEM s None
          end
      | Some _ => Undefined
      end
  | pthread_mutex_lock mutex =>
      match mutexes s !! mutex with
      | None | Some MFree => Done 0 (set_mutexes (insert mutex (MLocked t)) s) None
      | Some (MLocked _) => Blocked
      | Some MCheckFree => Done 0 (set_mutexes (insert mutex (MCheckLocked t)) s) None
      | Some (MCheckLocked o) => if decide (o = t) then Done EDEADLK s None else Blocked
      end
  | pthread_mutex_unlock mutex =>
      match mutexes s !! mutex with
      | Some (MLocked o) =>
          if decide (o = t)
          then Done 0 (set_mutexes (insert mutex MFree) s) None
          else Undefined
      | Some (MCheckLocked o) =>
          if decide (o = t)
          then Done 0 (set_mutexes (insert mutex MCheckFree) s) None
          else Done EPERM s None
      | Some MCheckFree => Done EPERM s None
      | None | Some MFree => Undefined
      end
  | pthread_cond_init cond =>
      match conds s !! cond with
      | None =>
          match choice with
          | O => Done 0 (set_conds (insert cond []) s) None
          | Datatypes.S _ => Done ENOMEM s None
          end
      | Some _ => Undefined
      end
  | pthread_cond_wait cond mutex =>
      match List.find (is_waiter t) (waiters s cond) with
      | None =>
          (* entry: release the mutex and join the waiters, atomically *)
          match mutexes s !! mutex with
          | Some (MLocked o) =>
              if decide (o = t)
              then Internal (set_conds (insert cond (waiters s cond ++ [CvWaiter t mutex false]))
                               (set_mutexes (insert mutex MFree) s))
              else Undefined
          | Some (MCheckLocked o) =>
              if decide (o = t)
              then Internal (set_conds (insert cond (waiters s cond ++ [CvWaiter t mutex false]))
                               (set_mutexes (insert mutex MCheckFree) s))
              else Done EPERM s None
          | Some MCheckFree => Done EPERM s None
          | None | Some MFree => Undefined
          end
      | Some w =>
          if w_woken w then
            (* restarted: return once the mutex is reacquired *)
            match mutexes s !! mutex with
            | None | Some MFree =>
                Done 0 (set_conds (insert cond (List.filter (fun w => negb (is_waiter t w))
                                                  (waiters s cond)))
                          (set_mutexes (insert mutex (MLocked t)) s)) None
            | Some MCheckFree =>
                Done 0 (set_conds (insert cond (List.filter (fun w => negb (is_waiter t w))
                                                  (waiters s cond)))
                          (set_mutexes (insert mutex (MCheckLocked t)) s)) None
            | Some (MLocked _) | Some (MCheckLocked _) => Blocked
            end
          else Blocked
      end
  | pthread_cond_signal cond =>
      match length (List.filter sleeping (waiters s cond)) with
      | O => Done 0 s None
      | Datatypes.S n =>
          Done 0 (set_conds (insert cond (wake_nth (choice mod Datatypes.S n) (waiters s cond))) s)
               None
      end
  end.

(** The thread that holds a mutex, if any. *)
Definition owner (m : option mutex_state) : option tid :=
  match m with
  | Some (MLocked o) | Some (MCheckLocked o) => Some o
  | _ => None
  end.

(** Thread [t] holds the mutex at [mutex]. *)
Definition holds (t : tid) (mutex : Z) (s : os_state) : Prop :=
  owner (mutexes s !! mutex) = Some t.

(** The waiters of [cond] that a signal has restarted and that have not
    yet returned from their wait. *)
Definition restarted (s : os_state) (cond : Z) : nat :=
  match conds s !! cond with
  | Some ws => length (List.filter w_woken ws)
  | None => O
  end.

(** Labels of an execution: a successful [pthread_cond_signal] on [cond],
    and a wait on [cond] that returned 0. *)
Definition is_signal (cond : Z) (l : label oscall) : bool :=
  match l with
  | L_call _ (Obs _ e x) _ =>
      match e in oscall X return X -> bool with
      | pthread_cond_signal c => fun x => (c =? cond) && (x =? 0)
      | _ => fun _ => false
      end x
  | L_tau _ => false
  end.

Definition is_wake (cond : Z) (l : label oscall) : bool :=
  match l with
  | L_call _ (Obs _ e x) _ =>
      match e in oscall X return X -> bool with
      | pthread_cond_wait c _ => fun x => (c =? cond) && (x =? 0)
      | _ => fun _ => false
      end x
  | L_tau _ => false
  end.

(** Whether a call reported failure, by the call's own convention. *)
Definition native_failed (o : obs oscall) : bool :=
  match o with
  | Obs _ e x =>
      match e in oscall X return X -> bool with
      | dlclose _ => fun x => negb (x =? 0)
      | pthread_create _ _ => fun x => negb (fst x =? 0)
      | pthread_detach _ => fun x => negb (x =? 0)
      | pthread_mutex_init _ => fun x => negb (x =? 0)
      | pthread_mutex_lock _ => fun x => negb (x =? 0)
      | pthread_mutex_unlock _ => fun x => negb (x =? 0)
      | pthread_cond_init _ => fun x => negb (x =? 0)
      | pthread_cond_wait _ _ => fun x => negb (x =? 0)
      | pthread_cond_signal _ => fun x => negb (x =? 0)
      | _ => fun _ => false
      end x
  end.

(** Whether a call is a [META_ERROR] with a message. *)
Definition is_log (o : obs oscall) : bool :=
  match o with
  | Obs _ e _ =>
      match e with
      | META_ERROR fmt _ => match fmt with EmptyString => false | String _ _ => true end
      | _ => false
      end
  end.

(** The format of the message a call logs, if it is a [META_ERROR]. *)
Definition log_fmt (o : obs oscall * option fnptr) : option string :=
  match o with
  | (Obs _ e _, _) =>
      match e with
      | META_ERROR fmt _ => Some fmt
      | _ => None
      end
  end.

(** Whether a call is a [pthread_cond_signal]. *)
Definition is_native_signal (o : obs oscall) : bool :=
  match o with
  | Obs _ e _ =>
      match e with
      | pthread_cond_signal _ => true
      | _ => false
      end
  end.
End Linux.

(** ** Contained invocation of a foreign function pointer *)

(** [os_safe_call] is only declared in osdep.h (line 141:
    [mBOOL os_safe_call(REG_CMD_FN pfn)]); its body is in the per-platform
    osdep sources, which are not among the files at hand.  The module
    below models it from the component design of SafeInvoker: a per-call
    fault boundary, established immediately before the call and released
    immediately after it, that turns a synchronous fatal fault of the
    callee into the result [Faulted]. *)
Module SafeInvoker.
Inductive fault : Type :=
| InvalidMemoryAccess
| IllegalInstruction.

(** What a callee does on the memory [M] of the host: it returns, or it
    raises a synchronous fatal fault; either way it leaves a memory. *)
Inductive behaviour (M : Type) : Type :=
| Returns (m : M)
| Faults (f : fault) (m : M).

Arguments Returns {M} m.
Arguments Faults {M} f m.

Definition REG_CMD_FN (M : Type) : Type := M -> behaviour M.

Inductive call_result : Type :=
| Completed
| Faulted.

(** The state machine of one call. *)
Inductive call_state : Type :=
| NotStarted
| Invoking
| Ended (r : call_result).

Record host (M : Type) : Type :=
  Host { running : bool; armed : bool; memory : M }.

Arguments Host {M} running armed memory.
Arguments running {M} h.
Arguments armed {M} h.
Arguments memory {M} h.

Definition establish {M} (h : host M) : host M := Host (running h) true (memory h).
Definition release {M} (h : host M) : host M := Host (running h) false (memory h).

(** Modelled from the spec: the fault boundary of [os_safe_call] (body not
    at hand).  A fatal fault reaches the process: the boundary, when
    established, intercepts it; otherwise the process is terminated. *)
Definition raise {M} (m : M) (h : host M) : call_state * host M :=
  if armed h then (Ended Faulted, Host (running h) (armed h) m)
  else (Invoking, Host false (armed h) m).

(** Modelled from the spec: the state machine of one call of
    [os_safe_call] (body not at hand), NotStarted -> Invoking ->
    Completed or Faulted.  One transition of the call. *)
Definition transition {M} (pfn : REG_CMD_FN M) (st : call_state) (h : host M)
    : call_state * host M :=
  match st with
  | NotStarted => (Invoking, establish h)
  | Invoking =>
      match pfn (memory h) with
      | Returns m => (Ended Completed, Host (running h) (armed h) m)
      | Faults _ m => raise m h
      end
  | Ended r => (Ended r, h)
  end.

(** Modelled from the spec: the body of [os_safe_call], declared in
    osdep.h and defined elsewhere.  [Call]: NotStarted, Invoking, then
    Completed or Faulted; the boundary is established for this call alone
    and released whatever the outcome.  A host that is not running makes
    no call. *)
Definition os_safe_call {M} (pfn : REG_CMD_FN M) (h : host M) : option call_result * host M :=
  if running h then
    let '(st1, h1) := transition pfn NotStarted h in
    let '(st2, h2) := transition pfn st1 h1 in
    match st2 with
    | Ended r => (Some r, release h2)
    | _ => (None, h2)
    end
  else (None, h).

(** Modelled from the spec: the same invocation without the boundary. *)
Definition plain_call {M} (pfn : REG_CMD_FN M) (h : host M) : option call_result * host M :=
  if running h then
    let '(st2, h2) := transition pfn Invoking h in
    match st2 with
    | Ended r => (Some r, h2)
    | _ => (None, h2)
    end
  else (None, h).
End SafeInvoker.

(** ** The primitive operations, by name *)

(** The operations whose result is an [int] telling success from failure. *)
Inductive primitive : Type :=
| P_DLCLOSE (handle : Z)
| P_THREAD_CREATE (tid : Z) (func : fnptr)
| P_MUTEX_INIT (mutex : Z)
| P_MUTEX_LOCK (mutex : Z)
| P_MUTEX_UNLOCK (mutex : Z)
| P_COND_INIT (cond : Z)
| P_COND_WAIT (cond mutex : Z)
| P_COND_SIGNAL (cond : Z).

(** The operations of Mutex, ConditionVariable and ThreadRunner. *)
Definition is_sync (p : primitive) : bool :=
  match p with
  | P_DLCLOSE _ => false
  | _ => true
  end.

(** Each operation under each backing, reduced to the [int] it returns.
    Under [_WIN32] the condition variable is the event handle in [cond]. *)
Definition win32_int (p : primitive) : prog Win32.oscall Z :=
  match p with
  | P_DLCLOSE handle => Win32.DLCLOSE handle
  | P_THREAD_CREATE tid func => r <- Win32.THREAD_CREATE tid func ;; Ret r.1
  | P_MUTEX_INIT mutex => Win32.MUTEX_INIT mutex
  | P_MUTEX_LOCK mutex => Win32.MUTEX_LOCK mutex
  | P_MUTEX_UNLOCK mutex => Win32.MUTEX_UNLOCK mutex
  | P_COND_INIT _ => r <- Win32.COND_INIT ;; Ret r.1
  | P_COND_WAIT cond mutex => Win32.COND_WAIT cond mutex
  | P_COND_SIGNAL cond => Win32.COND_SIGNAL cond
  end.

Definition linux_int (p : primitive) : prog Linux.oscall Z :=
  match p with
  | P_DLCLOSE handle => Linux.DLCLOSE handle
  | P_THREAD_CREATE tid func => r <- Linux.THREAD_CREATE tid func ;; Ret r.1
  | P_MUTEX_INIT mutex => Linux.MUTEX_INIT mutex
  | P_MUTEX_LOCK mutex => Linux.MUTEX_LOCK mutex
  | P_MUTEX_UNLOCK mutex => Linux.MUTEX_UNLOCK mutex
  | P_COND_INIT cond => Linux.COND_INIT cond
  | P_COND_WAIT cond mutex => Linux.COND_WAIT cond mutex
  | P_COND_SIGNAL cond => Linux.COND_SIGNAL cond
  end.

(** ** Control points of the wrappers that block *)








(** ** Scenarios *)

(** A [_WIN32] process whose main thread, thread 0, has initialised a
    mutex at address 100, locked it, and initialised a condition variable:
    the event behind handle 1. *)
Definition win32_fresh : Win32.os_state :=
  Win32.State [] 16 8 ∅ ∅ ∅ 0%Z [].

Definition win32_ready : Win32.os_state :=
  Win32.State [Win32.KEvent false false] 16 8 {[100%Z := Win32.CsOwned 0 0]} ∅ ∅ 0%Z [].

(** Thread 0 is about to wait, thread 1 about to signal. *)
Definition win32_pair : config Win32.oscall Win32.os_state Z :=
  Config win32_ready [Win32.COND_WAIT 1 100; Win32.COND_SIGNAL 1].

(** No function pointer is called in these scenarios. *)
Definition no_code {E : Type -> Type} {R : Type} (r : R) (f : fnptr) : prog E R := Ret r.

(** The signal first, before thread 0 has begun its wait; then the wait. *)
Definition win32_signal_first : list (tid * nat) := [(1, 0)]%nat.
Definition win32_then_wait : list (tid * nat) := [(0, 0); (0, 0); (0, 0)]%nat.

(** The wait first, as far as it goes; then the signal; then the wait again. *)
Definition win32_wait_signal_wake : list (tid * nat) :=
  [(0, 0); (1, 0); (0, 0); (0, 0)]%nat.

(** A wait on the NULL handle, as after a COND_INIT that failed. *)
Definition win32_bad_cond : config Win32.oscall Win32.os_state Z :=
  Config win32_ready [Win32.COND_WAIT 0 100].

Definition five_steps : list (tid * nat) :=
  [(0, 0); (0, 0); (0, 0); (0, 0); (0, 0)]%nat.

(** The same under [linux]: the mutex at 100 is held by thread 0, the
    condition variable at 200 has no waiter. *)
Definition linux_ready : Linux.os_state :=
  Linux.State {[100%Z := Linux.MLocked 0]} {[200%Z := []]} ∅ 8 ∅ ∅ None [].

Definition linux_pair : config Linux.oscall Linux.os_state Z :=
  Config linux_ready [Linux.COND_WAIT 200 100; Linux.COND_SIGNAL 200].

Definition linux_wait_signal_wake : list (tid * nat) :=
  [(0, 0); (1, 0); (0, 0)]%nat.

(** A wait with a mutex the caller does not hold: the mutex at 100 is of
    the error-checking kind and free. *)
Definition linux_checked : Linux.os_state :=
  Linux.State {[100%Z := Linux.MCheckFree]} {[200%Z := []]} ∅ 8 ∅ ∅ None [].

Definition linux_unowned_wait : config Linux.oscall Linux.os_state Z :=
  Config linux_checked [Linux.COND_WAIT 200 100].

Definition three_steps : list (tid * nat) := [(0, 0); (0, 0); (0, 0)]%nat.

(** A second lock of an error-checking mutex by the thread that holds it. *)
Definition linux_relock : config Linux.oscall Linux.os_state Z :=
  Config (Linux.State {[100%Z := Linux.MCheckLocked 0]} ∅ ∅ 8 ∅ ∅ None [])
         [Linux.MUTEX_LOCK 100].

(** A [linux] process about to create a thread whose entry point, at
    address 4096, detaches the thread it runs in (thread 1, the first
    thread the process creates) before doing anything else. *)
Definition linux_fresh : Linux.os_state :=
  Linux.State ∅ ∅ ∅ 8 ∅ ∅ None [].

Definition self_detaching (f : fnptr) : prog Linux.oscall (Z * Z) :=
  r <- call (Linux.pthread_detach 1) ;;
  Ret (r, 0%Z).

Definition linux_creator : config Linux.oscall Linux.os_state (Z * Z) :=
  Config linux_fresh [Linux.THREAD_CREATE 0 4096].

(** The thread is created, runs and detaches itself, and only then does its
    creator get to detach it. *)
Definition linux_detach_race : list (tid * nat) :=
  [(0, 0); (1, 0); (0, 0); (0, 0); (0, 0)]%nat.

(** A process that cannot create any more threads. *)
Definition linux_exhausted : config Linux.oscall Linux.os_state (Z * Z) :=
  Config (Linux.State ∅ ∅ ∅ 0 ∅ ∅ None []) [Linux.THREAD_CREATE 0 4096].

Definition win32_exhausted : config Win32.oscall Win32.os_state (Z * Z) :=
  Config (Win32.State [] 16 0 ∅ ∅ ∅ 0%Z []) [Win32.THREAD_CREATE 0 4096].

(** A module mapped at 65536 that exports [Meta_Query] and nothing else,
    opened once. *)
Definition plugin_exports : gmap string Z := {[ "Meta_Query"%string := 65792%Z ]}.

Definition win32_with_plugin : Win32.os_state :=
  Win32.State [] 16 8 ∅ ∅ {[65536%Z := (0%nat, plugin_exports)]} 0%Z [].

Definition linux_with_plugin : Linux.os_state :=
  Linux.State ∅ ∅ ∅ 8 ∅ {[65536%Z := (0%nat, plugin_exports)]} None [].

(** The same module still on disk, as [plugin.dll] and [plugin.so]. *)
Definition win32_with_disk : Win32.os_state :=
  Win32.State [] 16 8 ∅ {[ "plugin.dll"%string := Image 65536 true plugin_exports ]} ∅ 0%Z [].

Definition linux_with_disk : Linux.os_state :=
  Linux.State ∅ ∅ ∅ 8 {[ "plugin.so"%string := Image 65536 true plugin_exports ]} ∅ None [].

(** Open, resolve, close; then try to open a file that is not there and
    ask for the error. *)
Definition win32_session : prog Win32.oscall (Z * Z * Z * Z * string) :=
  h <- Win32.DLOPEN "plugin.dll" ;;
  f <- Win32.DLSYM h "Meta_Query" ;;
  r <- Win32.DLCLOSE h ;;
  h' <- Win32.DLOPEN "missing.dll" ;;
  e <- Win32.DLERROR ;;
  Ret (h, f, r, h', e).

Definition linux_session : prog Linux.oscall (Z * Z * Z * Z * option string) :=
  h <- Linux.DLOPEN "plugin.so" ;;
  f <- Linux.DLSYM h "Meta_Query" ;;
  r <- Linux.DLCLOSE h ;;
  h' <- Linux.DLOPEN "missing.so" ;;
  e <- Linux.DLERROR ;;
  Ret (h, f, r, h', e).

(** Resolve a missing symbol and ask for the error twice; then a missing
    symbol followed by an exported one, and ask again. *)
Definition linux_error_slot : prog Linux.oscall (option string * option string * option string) :=
  h <- Linux.DLOPEN "plugin.so" ;;
  _ <- Linux.DLSYM h "nonexistent_symbol" ;;
  e1 <- Linux.DLERROR ;;
  e2 <- Linux.DLERROR ;;
  _ <- Linux.DLSYM h "nonexistent_symbol" ;;
  _ <- Linux.DLSYM h "Meta_Query" ;;
  e3 <- Linux.DLERROR ;;
  Ret (e1, e2, e3).

(** An error-checking mutex through its misuses by one thread: unlocked
    while free, locked, locked again, unlocked, unlocked again. *)
Definition linux_checked_misuse : prog Linux.oscall (list Z) :=
  r1 <- Linux.MUTEX_UNLOCK 100 ;;
  r2 <- Linux.MUTEX_LOCK 100 ;;
  r3 <- Linux.MUTEX_LOCK 100 ;;
  r4 <- Linux.MUTEX_UNLOCK 100 ;;
  r5 <- Linux.MUTEX_UNLOCK 100 ;;
  Ret [r1; r2; r3; r4; r5].

(** A [_WIN32] process about to create a thread. *)
Definition win32_creator : config Win32.oscall Win32.os_state (Z * Z) :=
  Config win32_fresh [Win32.THREAD_CREATE 0 4096].

(** A callee that dereferences an invalid address, and one that increments
    the counter the host memory consists of. *)
Definition bad_callee : SafeInvoker.REG_CMD_FN nat :=
  fun m => SafeInvoker.Faults SafeInvoker.InvalidMemoryAccess m.

Definition good_callee : SafeInvoker.REG_CMD_FN nat :=
  fun m => SafeInvoker.Returns (Datatypes.S m).

Definition idle_host : SafeInvoker.host nat := SafeInvoker.Host true false 0.

(** ** File modes (osdep.h, lines 177-181) *)

(** Constants of [<sys/stat.h>]: the mask of the file-type field of a mode
    and the types it can hold. *)
Definition S_IFMT : Z := 61440.    (* 0170000 *)
Definition S_IFSOCK : Z := 49152.  (* 0140000 *)
Definition S_IFLNK : Z := 40960.   (* 0120000 *)
Definition S_IFREG : Z := 32768.   (* 0100000 *)
Definition S_IFBLK : Z := 24576.   (* 0060000 *)
Definition S_IFDIR : Z := 16384.   (* 0040000 *)
Definition S_IFCHR : Z := 8192.    (* 0020000 *)
Definition S_IFIFO : Z := 4096.    (* 0010000 *)

(** The macro osdep.h supplies where the compiler's headers have none:
    [#define S_ISREG(m) ((m) & S_IFREG)]. *)
Definition S_ISREG (m : Z) : Z := Z.land m S_IFREG.

(** ** Control points of the lock wrappers *)

(** Where a thread stands inside [Win32.MUTEX_LOCK mutex]. *)
Inductive win32_lock_point : Type :=
| WL_start
| WL_done.

Definition win32_lock_at (mutex : Z) (pt : win32_lock_point) : prog Win32.oscall Z :=
  match pt with
  | WL_start => Win32.MUTEX_LOCK mutex
  | WL_done => Ret Win32.THREAD_OK
  end.

Definition win32_lock_inv (t : tid) (mutex : Z) (pt : win32_lock_point) (s : Win32.os_state)
    : Prop :=
  match pt with
  | WL_start => True
  | WL_done => Win32.holds t mutex s
  end.

(** Where a thread stands inside [Linux.MUTEX_LOCK mutex]: before the call
    of [pthread_mutex_lock], or after it with its answer. *)
Inductive linux_lock_point : Type :=
| LL_start
| LL_answered (ret : Z)
| LL_logging (ret : Z) (msg : string)
| LL_done (ret : Z).

Definition linux_lock_at (mutex : Z) (pt : linux_lock_point) : prog Linux.oscall Z :=
  match pt with
  | LL_start => Linux.MUTEX_LOCK mutex
  | LL_answered ret =>
      _ <- (if negb (ret =? Linux.THREAD_OK)%Z
            then msg <- call (Linux.strerror ret) ;;
                 call (Linux.META_ERROR "mutex_lock failed: %s" msg)
            else Ret tt) ;;
      Ret ret
  | LL_logging ret msg =>
      _ <- call (Linux.META_ERROR "mutex_lock failed: %s" msg) ;;
      Ret ret
  | LL_done ret => Ret ret
  end.

(** [held] records whether the thread held the mutex when it called.
    After the call the thread holds the mutex: it has taken it, or the call
    answered EDEADLK because the thread held it already. *)
Definition linux_lock_inv (held : Prop) (t : tid) (mutex : Z) (pt : linux_lock_point)
    (s : Linux.os_state) : Prop :=
  match pt with
  | LL_start => Linux.holds t mutex s -> held
  | LL_answered ret | LL_logging ret _ | LL_done ret =>
      Linux.holds t mutex s /\ (ret <> 0%Z -> ret = Linux.EDEADLK /\ held)
  end.

(** ** Two threads around one condition variable, in any state *)

(** Thread 0 about to wait on [cond] with [mutex], thread 1 about to
    signal [cond]. *)
Definition win32_waiter_signaler (s : Win32.os_state) (cond mutex : Z)
    : config Win32.oscall Win32.os_state Z :=
  Config s [Win32.COND_WAIT cond mutex; Win32.COND_SIGNAL cond].

Definition linux_waiter_signaler (s : Linux.os_state) (cond mutex : Z)
    : config Linux.oscall Linux.os_state Z :=
  Config s [Linux.COND_WAIT cond mutex; Linux.COND_SIGNAL cond].

(** Thread 0 releases the mutex, thread 1 signals before thread 0 has
    reached its wait, thread 0 then waits and takes the mutex again. *)
Definition signal_in_the_window (ch : nat) : list (tid * nat) :=
  [(0, ch); (1, ch); (0, ch); (0, ch)]%nat.

(** Thread 0 enters its wait, thread 1 signals, thread 0 returns. *)
Definition signal_after_wait (ch : nat) : list (tid * nat) :=
  [(0, ch); (1, ch); (0, ch)]%nat.

(** ** Two threads racing for one mutex *)

Definition win32_lockers (s : Win32.os_state) (mutex : Z)
    : config Win32.oscall Win32.os_state Z :=
  Config s [Win32.MUTEX_LOCK mutex; Win32.MUTEX_LOCK mutex].

Definition linux_lockers (s : Linux.os_state) (mutex : Z)
    : config Linux.oscall Linux.os_state Z :=
  Config s [Linux.MUTEX_LOCK mutex; Linux.MUTEX_LOCK mutex].

(** Processes whose mutex at address 100 is initialised and free. *)
Definition win32_unlocked : Win32.os_state :=
  Win32.State [] 16 8 {[100%Z := Win32.CsFree]} ∅ ∅ 0%Z [].

Definition linux_unlocked : Linux.os_state :=
  Linux.State {[100%Z := Linux.MFree]} ∅ ∅ 8 ∅ ∅ None [].

(** ** Calls on the synchronisation objects *)

(** Whether a call is one on a critical section. *)
Definition win32_is_cs_call (o : obs Win32.oscall) : bool :=
  match o with
  | Obs _ e _ =>
      match e with
      | Win32.InitializeCriticalSection _
      | Win32.EnterCriticalSection _
      | Win32.LeaveCriticalSection _ => true
      | _ => false
      end
  end.

(** Whether a call is one on a mutex or a condition variable. *)
Definition linux_is_sync_call (o : obs Linux.oscall) : bool :=
  match o with
  | Obs _ e _ =>
      match e with
      | Linux.pthread_mutex_init _
      | Linux.pthread_mutex_lock _
      | Linux.pthread_mutex_unlock _
      | Linux.pthread_cond_init _
      | Linux.pthread_cond_wait _ _
      | Linux.pthread_cond_signal _ => true
      | _ => false
      end
  end.

(** * Facts about programs and executions *)

Section ProgramFacts.
Context {E : Type -> Type}.

Lemma runs_inv {R : Type} (p : prog E R) (tr : list (obs E)) (r : R) :
  runs p tr r ->
  match p with
  | Ret r0 => tr = [] /\ r = r0
  | Vis e k => exists x tr', tr = Obs _ e x :: tr' /\ runs (k x) tr' r
  end.
Proof. destruct 1; eauto. Qed.

Lemma play_runs (a : forall X, E X -> X) {R : Type} (p : prog E R) :
  runs p (play a p).1 (play a p).2.
Proof.
  induction p as [r | X e k IH]; simpl.
  - constructor.
  - specialize (IH (a X e)). destruct (play a (k (a X e))) as [tr r].
    simpl in *. by constructor.
Qed.
End ProgramFacts.

Section PoolFacts.
Context {E : Type -> Type} {S R : Type}.
Variable os_step : tid -> tid -> nat -> forall X, E X -> S -> outcome S X.
Variable code : fnptr -> prog E R.

Local Abbreviation step := (pool_step os_step code).
Local Abbreviation execution := (exec os_step code).

(** A step of one thread leaves the programs of the others alone. *)
Lemma pool_step_frame (t0 t : tid) (ch : nat) (c c1 : config E S R) (l : label E)
    (p : prog E R) :
  step t0 ch c = Stepped l c1 -> t <> t0 -> pool c !! t = Some p -> pool c1 !! t = Some p.
Proof.
  unfold pool_step. intros Hs Hne Hp.
  destruct (pool c !! t0) as [[r | X e k] |]; try discriminate.
  destruct (os_step _ _ _ _ _ _) as [x s' sp | s' | |]; try discriminate;
    injection Hs as <- <-; simpl; [| done].
  rewrite lookup_app_l.
  - by rewrite list_lookup_insert_ne.
  - rewrite length_insert. by eapply lookup_lt_Some.
Qed.

Lemma pool_step_moves (t0 : tid) (ch : nat) (c c1 : config E S R) (l : label E) :
  step t0 ch c = Stepped l c1 -> os_moves os_step t0 (os c) (os c1).
Proof.
  unfold pool_step. intros Hs.
  destruct (pool c !! t0) as [[r | X e k] |]; try discriminate.
  destruct (os_step _ _ _ _ _ _) as [x s' sp | s' | |] eqn:Ho; try discriminate;
    injection Hs as <- <-; simpl; exists (length (pool c)), ch, X, e; eauto.
Qed.

Lemma pool_step_call_other (t0 t : tid) (ch : nat) (c c1 : config E S R) (l : label E) :
  step t0 ch c = Stepped l c1 -> t <> t0 -> call_of t l = None.
Proof.
  unfold pool_step. intros Hs Hne.
  destruct (pool c !! t0) as [[r | X e k] |]; try discriminate.
  destruct (os_step _ _ _ _ _ _) as [x s' sp | s' | |]; try discriminate;
    injection Hs as <- <-; simpl; [| done].
  by rewrite decide_False.
Qed.

Lemma run_sched_exec (sched : list (tid * nat)) (c c' : config E S R) (ls : list (label E)) :
  run_sched os_step code sched c = Some (ls, c') -> execution c ls c'.
Proof.
  revert c ls. induction sched as [| [t ch] sched IH]; simpl; intros c ls H.
  - injection H as <- <-. constructor.
  - destruct (step t ch c) as [l c1 | | | |] eqn:Hs; try discriminate.
    destruct (run_sched _ _ sched c1) as [[ls' c2] |] eqn:Hr; try discriminate.
    injection H as <- <-. econstructor; eauto.
Qed.

Lemma run_exec (sched : list (tid * nat)) (c : config E S R) :
  is_Some (run_sched os_step code sched c) ->
  execution c (run_labels os_step code sched c) (run_final os_step code sched c).
Proof.
  intros [[ls c'] H]. unfold run_labels, run_final. rewrite H. by apply run_sched_exec with sched.
Qed.

Lemma exec_split (ls1 ls2 : list (label E)) (c c2 : config E S R) :
  execution c (ls1 ++ ls2) c2 -> exists c1, execution c ls1 c1 /\ execution c1 ls2 c2.
Proof.
  revert c. induction ls1 as [| l ls1 IH]; simpl; intros c H.
  - exists c. split; [constructor | done].
  - inversion H as [| t ch ? c1 ? ? ? Hs Hrest]; subst.
    destruct (IH _ Hrest) as (cm & H1 & H2).
    exists cm. split; [econstructor; eauto | done].
Qed.

(** The calls of a thread in an execution are a path through its program. *)
Lemma exec_tview (t : tid) (c c' : config E S R) (ls : list (label E)) :
  execution c ls c' ->
  forall p, pool c !! t = Some p ->
  exists p', pool c' !! t = Some p' /\ tpath os_step t p (tview t ls) p'.
Proof.
  induction 1 as [c | t0 ch c c1 c2 l ls Hs Hrest IH]; intros p Hp.
  - exists p. by split.
  - destruct (decide (t = t0)) as [-> | Hne].
    + unfold pool_step in Hs. rewrite Hp in Hs.
      destruct p as [r | X e k]; try discriminate.
      destruct (os_step _ _ _ _ _ _) as [x s' sp | s' | |] eqn:Ho; try discriminate;
        injection Hs as <- <-.
      * destruct (IH (k x)) as (p' & Hp' & Hpath).
        { simpl. rewrite lookup_app_l.
          - apply list_lookup_insert_eq. by eapply lookup_lt_Some.
          - rewrite length_insert. by eapply lookup_lt_Some. }
        exists p'. split; [done |].
        unfold tview. simpl. rewrite decide_True by done. simpl.
        exists x. split; [done |]. split; [| done].
        exists (length (pool c)), ch, (os c), s'. done.
      * destruct (IH _ Hp) as (p' & Hp' & Hpath). exists p'. by split.
    + destruct (IH p) as (p' & Hp' & Hpath).
      { by eapply pool_step_frame. }
      exists p'. split; [done |].
      unfold tview. simpl. by rewrite (pool_step_call_other _ _ _ _ _ _ Hs Hne).
Qed.

Lemma count_cons (f : label E -> bool) (l : label E) (ls : list (label E)) :
  count f (l :: ls) = (Nat.b2n (f l) + count f ls)%nat.
Proof. unfold count. simpl. by destruct (f l). Qed.

(** Running a sequence alone is running its parts alone, one after the
    other. *)
Lemma solo_bind {A B : Type} (t : tid) (p : prog E A) (f : A -> prog E B) (s : S) :
  solo os_step t (bind p f) s =
  match solo os_step t p s with
  | Returned r s' => solo os_step t (f r) s'
  | Suspended s' => Suspended s'
  | Fault => Fault
  end.
Proof.
  revert s. induction p as [r | X e k IH]; intros s; simpl; [done |].
  by destruct (os_step _ _ _ _ _ _).
Qed.

(** A thread-local invariant: a predicate on the control point of thread
    [t] and the platform state that the other threads cannot disturb and
    that each call of [t] carries to the next control point. *)
Section ThreadInvariant.
Variable t : tid.
Context {Pt : Type}.
Variable at_point : Pt -> prog E R.
Variable I : Pt -> S -> Prop.

Hypothesis stable : forall t0 pt s s',
  t0 <> t -> os_moves os_step t0 s s' -> I pt s -> I pt s'.

Hypothesis own : forall pt fresh ch s,
  I pt s ->
  match at_point pt with
  | Ret _ => True
  | Vis e k =>
      match os_step t fresh ch _ e s with
      | Done x s' _ => exists pt', k x = at_point pt' /\ I pt' s'
      | Internal s' => I pt s'
      | _ => True
      end
  end.

Lemma exec_thread_invariant (c c' : config E S R) (ls : list (label E)) :
  execution c ls c' ->
  forall pt, pool c !! t = Some (at_point pt) -> I pt (os c) ->
  exists pt', pool c' !! t = Some (at_point pt') /\ I pt' (os c').
Proof.
  induction 1 as [c | t0 ch c c1 c2 l ls Hs Hrest IH]; intros pt Hp HI.
  - eauto.
  - destruct (decide (t0 = t)) as [-> | Hne].
    + pose proof (own pt (length (pool c)) ch (os c) HI) as Hown.
      unfold pool_step in Hs. rewrite Hp in Hs.
      destruct (at_point pt) as [r | X e k] eqn:Hat; try discriminate.
      destruct (os_step _ _ _ _ _ _) as [x s' sp | s' | |]; try discriminate;
        injection Hs as <- <-.
      * destruct Hown as (pt' & Hk & HI'). apply (IH pt'); [| done].
        simpl. rewrite <- Hk. rewrite lookup_app_l.
        -- apply list_lookup_insert_eq. by eapply lookup_lt_Some.
        -- rewrite length_insert. by eapply lookup_lt_Some.
      * apply (IH pt); [| done]. simpl. by rewrite Hat.
    + apply (IH pt).
      * eapply pool_step_frame; eauto.
      * eapply stable; eauto. by eapply pool_step_moves.
Qed.
End ThreadInvariant.
End PoolFacts.

(** Inversion of a run of a wrapper, call by call: a return ends the run,
    a call contributes its answer, a test of an answer splits the run, and
    anything else is unfolded. *)
Ltac runs_step H :=
  lazymatch type of H with
  | runs (Ret _) _ _ => apply runs_inv in H; destruct H as [-> ->]
  | runs (Vis _ _) _ _ =>
      let x := fresh "x" in
      let tr := fresh "tr" in
      apply runs_inv in H; destruct H as (x & tr & -> & H); simpl in H
  | runs ?p _ _ =>
      first
        [ match p with
          | context [match ?x with pair _ _ => _ end] => is_var x; destruct x; simpl in H
          | context [if ?b then _ else _] => destruct b eqn:?; simpl in H
          end
        | let p' := eval hnf in p in progress change p with p' in H; simpl in H ]
  end.

Ltac runs_all H := repeat runs_step H.

Ltac eqb_cases :=
  repeat match goal with
    | H : context [Z.eqb ?a ?b] |- _ => destruct (Z.eqb_spec a b)
    | |- context [Z.eqb ?a ?b] => destruct (Z.eqb_spec a b)
    end.

(** * The result encoding of the wrappers *)

Section ResultEncoding.
Local Open Scope Z_scope.

Lemma win32_encoding (p : primitive) (tr : list (obs Win32.oscall)) (r : Z) :
  runs (win32_int p) tr r -> (r = 0 <-> existsb Win32.native_failed tr = false).
Proof.
  intros H. destruct p;
    runs_all H; simpl; unfold c_not, c_eq, Win32.NULL, Win32.WAIT_OBJECT_0,
      Win32.THREAD_OK in *; simpl in *; eqb_cases; simpl; split; intros; congruence || lia.
Qed.

Lemma linux_encoding (p : primitive) (tr : list (obs Linux.oscall)) (r : Z) :
  runs (linux_int p) tr r -> (r = 0 <-> existsb Linux.native_failed tr = false).
Proof.
  intros H. destruct p;
    runs_all H; simpl; unfold Linux.THREAD_OK in *; simpl in *; eqb_cases; simpl;
    split; intros; congruence || lia.
Qed.

Lemma win32_failure_logged (p : primitive) (tr : list (obs Win32.oscall)) (r : Z) :
  is_sync p = true -> runs (win32_int p) tr r ->
  (r = 0 -> existsb Win32.is_log tr = false) /\ (r <> 0 -> existsb Win32.is_log tr = true).
Proof.
  intros Hp H. destruct p; try discriminate;
    runs_all H; simpl; unfold c_not, c_eq, Win32.NULL, Win32.WAIT_OBJECT_0,
      Win32.THREAD_OK in *; simpl in *; eqb_cases; simpl; split; intros; congruence || lia.
Qed.

Lemma linux_failure_logged (p : primitive) (tr : list (obs Linux.oscall)) (r : Z) :
  is_sync p = true -> runs (linux_int p) tr r ->
  (r = 0 -> existsb Linux.is_log tr = false) /\ (r <> 0 -> existsb Linux.is_log tr = true).
Proof.
  intros Hp H. destruct p; try discriminate;
    runs_all H; simpl; unfold Linux.THREAD_OK in *; simpl in *; eqb_cases; simpl;
    split; intros; congruence || lia.
Qed.
End ResultEncoding.

(** Case analysis of a platform step: in the goal and the hypotheses, or
    in the equation of the step alone. *)
Ltac os_cases H :=
  simpl in H; repeat case_match; simplify_eq; simpl in *.

Ltac os_inv H :=
  simpl in H;
  repeat (match type of H with
          | context [match ?x with _ => _ end] => destruct x eqn:?
          end; try discriminate);
  simplify_eq; simpl in *.

(** * The [_WIN32] platform *)

Section Win32Facts.
Local Open Scope Z_scope.
Import Win32.


(** No thread can take a critical section away from its owner. *)
Lemma win32_holds_stable (t0 t : tid) (mutex : Z) (s s' : os_state) :
  os_moves os_step t0 s s' -> t0 <> t -> holds t mutex s -> holds t mutex s'.
Proof.
  intros (fresh & ch & X & e & [(x & sp & H) | H]) Hne [n Hn]; unfold holds;
    destruct e; os_cases H; eauto;
    match goal with
    | |- context [<[?cs := _]> _ !! mutex] =>
        destruct (decide (cs = mutex)) as [-> |];
        [congruence | rewrite lookup_insert_ne by done; eauto]
    end.
Qed.



(** *** Events *)

Lemma new_handle_not_null (s : os_state) : (new_handle s =? NULL) = false.
Proof. unfold new_handle, NULL. apply Z.eqb_neq. lia. Qed.

Lemma slot_new_handle (s : os_state) : slot (new_handle s) = length (handles s).
Proof. unfold slot, new_handle. lia. Qed.

Lemma kobj_app (s : os_state) (h : HANDLE) (k x : kobject) :
  kobj s h = Some k -> kobj (set_handles (fun l => l ++ [x]) s) h = Some k.
Proof.
  unfold kobj. simpl. destruct (0 <? h); [| done]. intros H. by apply lookup_app_l_Some.
Qed.

Lemma kobj_insert_eq (s : os_state) (h : HANDLE) (k0 k : kobject) :
  kobj s h = Some k0 -> kobj (set_handles (<[slot h := k]>) s) h = Some k.
Proof.
  unfold kobj. simpl. destruct (0 <? h); [| done]. intros H.
  apply list_lookup_insert_eq. by eapply lookup_lt_Some.
Qed.

Lemma kobj_insert_ne (s : os_state) (h h' : HANDLE) (k0 k : kobject) :
  h <> h' -> kobj s h' = Some k0 -> kobj (set_handles (<[slot h' := k]>) s) h = kobj s h.
Proof.
  unfold kobj. simpl. intros Hne.
  destruct (Z.ltb_spec 0 h'); [| done]. destruct (Z.ltb_spec 0 h); [| done].
  intros _. apply list_lookup_insert_ne. unfold slot. lia.
Qed.

Lemma is_wake_not_set (h : HANDLE) (l : label oscall) :
  is_wake h l = true -> is_set h l = false.
Proof. destruct l as [t [X e x] sp | t]; [| done]. by destruct e. Qed.

(** One step: a wait released by the event consumes its signaled state,
    which only a [SetEvent] provides. *)
Lemma win32_step_count (code : fnptr -> prog oscall Z) (t : tid) (ch : nat)
    (c c1 : config oscall os_state Z) (l : label oscall) (h : HANDLE) :
  pool_step os_step code t ch c = Stepped l c1 ->
  auto_reset (os c) h ->
  auto_reset (os c1) h /\
  (Nat.b2n (is_wake h l) + Nat.b2n (signaled (os c1) h)
   <= Nat.b2n (is_set h l) + Nat.b2n (signaled (os c) h))%nat.
Proof.
  unfold pool_step, auto_reset, signaled. intros Hs [b Hb].
  destruct (pool c !! t) as [[r | X e k] |]; try discriminate.
  destruct (os_step _ _ _ _ _ _) as [x s' sp | s' | |] eqn:Hos; try discriminate;
    injection Hs as <- <-; simpl; destruct e; os_inv Hos;
    try (unfold kobj in *; simpl in *; rewrite Hb; split; [by eexists | lia]).
  - (* CreateThread *)
    change (kobj (set_threads_left n ?s) h) with (kobj s h).
    erewrite !kobj_app by done. rewrite Hb. split; [by eexists | lia].
  - (* CreateEvent *)
    erewrite !kobj_app by done. rewrite Hb. split; [by eexists | lia].
  - (* SetEvent *)
    destruct (Z.eqb_spec hEvent h) as [-> | Hne]; simpl.
    + rewrite Hb in Heqo. simplify_eq.
      erewrite !kobj_insert_eq by done. rewrite Hb.
      split; [by eexists | try destruct b; simpl; lia].
    + erewrite !kobj_insert_ne by done. rewrite Hb. split; [by eexists | lia].
  - (* WaitForSingleObject *)
    destruct (Z.eqb_spec hHandle h) as [-> | Hne]; simpl.
    + rewrite Hb in Heqo. simplify_eq.
      erewrite !kobj_insert_eq by done. rewrite Hb.
      split; [by eexists | try destruct b; simpl; lia].
    + erewrite !kobj_insert_ne by done. rewrite Hb. split; [by eexists | lia].
  - (* a wait that timed out *)
    rewrite andb_false_r, Hb. split; [by eexists | simpl; lia].
  - (* a wait on no object *)
    change (kobj (set_last_error ?e ?s) h) with (kobj s h).
    rewrite andb_false_r, Hb. split; [by eexists | simpl; lia].
Qed.

(** Along an execution, the waits that an auto-reset event released are
    at most the successful calls of [SetEvent] on it, plus one if it was
    signaled to begin with. *)
Lemma win32_wakes_le_sets (code : fnptr -> prog oscall Z) (c c' : config oscall os_state Z)
    (ls : list (label oscall)) (h : HANDLE) :
  exec os_step code c ls c' ->
  auto_reset (os c) h ->
  auto_reset (os c') h /\
  (count (is_wake h) ls + Nat.b2n (signaled (os c') h)
   <= count (is_set h) ls + Nat.b2n (signaled (os c) h))%nat.
Proof.
  induction 1 as [c | t ch c c1 c2 l ls Hs Hrest IH]; intros Ha.
  - split; [done |]. unfold count. simpl. lia.
  - destruct (win32_step_count _ _ _ _ _ _ h Hs Ha) as [Ha1 Hstep].
    destruct (IH Ha1) as [Ha2 Hle]. split; [done |].
    rewrite !count_cons. lia.
Qed.

(** From an unsignaled auto-reset event on, a wait is released only after
    some [SetEvent] on the event has succeeded. *)
Lemma win32_wake_needs_set (code : fnptr -> prog oscall Z) (c c' : config oscall os_state Z)
    (ls1 ls2 : list (label oscall)) (l : label oscall) (h : HANDLE) :
  exec os_step code c (ls1 ++ l :: ls2) c' ->
  auto_reset (os c) h -> signaled (os c) h = false ->
  is_wake h l = true ->
  exists l', In l' ls1 /\ is_set h l' = true.
Proof.
  intros Hex Ha Hs Hw.
  apply exec_split in Hex as (c1 & H1 & H2).
  inversion H2 as [| t ch ? c2 ? ? ? Hstep Hrest]; subst.
  destruct (win32_wakes_le_sets _ _ _ _ h H1 Ha) as [Ha1 Hle].
  destruct (win32_step_count _ _ _ _ _ _ h Hstep Ha1) as [_ Hst].
  rewrite Hw, (is_wake_not_set _ _ Hw) in Hst. rewrite Hs in Hle. simpl in *.
  unfold count in Hle.
  destruct (List.filter (is_set h) ls1) as [| l' ls'] eqn:Hf; simpl in *.
  - destruct (signaled (os c1) h); simpl in *; lia.
  - exists l'. apply filter_In. rewrite Hf. by left.
Qed.

Lemma win32_cond_init_solo (t : tid) (s s' : os_state) (h : COND_T) :
  solo os_step t COND_INIT s = Returned (0, h) s' ->
  h = new_handle s /\ s' = set_handles (fun l => l ++ [KEvent false false]) s.
Proof.
  unfold COND_INIT, call. simpl. destruct (table_full s); simpl.
  - discriminate.
  - by injection 1 as <- <-.
Qed.

Lemma win32_signal_solo (t : tid) (s : os_state) (h : COND_T) (b : bool) :
  kobj s h = Some (KEvent false b) ->
  solo os_step t (COND_SIGNAL h) s = Returned 0 (set_handles (<[slot h := KEvent false true]>) s).
Proof. intros H. unfold COND_SIGNAL, call. simpl. by rewrite H. Qed.

Lemma win32_wait_solo_signaled (t : tid) (s : os_state) (h : COND_T) (mutex : Z) (n : nat) :
  kobj s h = Some (KEvent false true) ->
  critsecs s !! mutex = Some (CsOwned t n) ->
  exists s', solo os_step t (COND_WAIT h mutex) s = Returned 0 s'
             /\ kobj s' h = Some (KEvent false false)
             /\ critsecs s' !! mutex = Some (CsOwned t n).
Proof.
  intros Hk Hm. unfold COND_WAIT, call. simpl. rewrite Hm. simpl.
  rewrite decide_True by done. simpl.
  change (kobj (set_critsecs ?f ?s) h) with (kobj s h). rewrite Hk. simpl.
  rewrite lookup_insert_eq. destruct n as [| n]; simpl.
  - eexists. split; [done |]. split.
    + change (kobj (set_critsecs ?f ?s) h) with (kobj s h). by eapply kobj_insert_eq.
    + simpl. by rewrite lookup_insert_eq.
  - rewrite decide_True by done. simpl.
    eexists. split; [done |]. split.
    + change (kobj (set_critsecs ?f ?s) h) with (kobj s h). by eapply kobj_insert_eq.
    + simpl. by rewrite lookup_insert_eq.
Qed.

Lemma win32_wait_solo_unsignaled (t : tid) (s : os_state) (h : COND_T) (mutex : Z) (n : nat) :
  kobj s h = Some (KEvent false false) ->
  critsecs s !! mutex = Some (CsOwned t n) ->
  exists s', solo os_step t (COND_WAIT h mutex) s = Suspended s'.
Proof.
  intros Hk Hm. unfold COND_WAIT, call. simpl. rewrite Hm. simpl.
  rewrite decide_True by done. simpl.
  change (kobj (set_critsecs ?f ?s) h) with (kobj s h). rewrite Hk. simpl.
  by eexists.
Qed.

(** *** Thread creation *)

(** What [CreateThread] answers decides whether a thread was created. *)
Lemma win32_create_thread_answer (t : tid) (func : fnptr) (tid0 : DWORD)
    (x : HANDLE * DWORD) (sp : option fnptr) :
  answered os_step t (CreateThread func tid0) x sp ->
  ((x.1 =? NULL) = true /\ x.2 = tid0 /\ sp = None) \/ ((x.1 =? NULL) = false /\ sp = Some func).
Proof.
  intros (fresh & ch & s & s' & H). os_inv H; auto.
Qed.

Lemma win32_thread_create_spawns (code : fnptr -> prog oscall (int * THREAD_T))
    (c c' : config oscall os_state (int * THREAD_T)) (ls : list (label oscall))
    (t : tid) (tid0 : THREAD_T) (func : fnptr) (r : int) (tid' : THREAD_T) :
  pool c !! t = Some (THREAD_CREATE tid0 func) ->
  exec os_step code c ls c' ->
  pool c' !! t = Some (Ret (r, tid')) ->
  (r = 0 /\ spawned_by t ls = [func]) \/ (r = 1 /\ spawned_by t ls = [] /\ tid' = tid0).
Proof.
  intros Hp Hex Hr.
  destruct (exec_tview os_step code t _ _ _ Hex _ Hp) as (p' & Hp' & Hpath).
  rewrite Hr in Hp'. injection Hp' as <-.
  unfold spawned_by. unfold THREAD_CREATE, call in Hpath.
  destruct (tview t ls) as [| [o1 sp1] tr]; simpl in Hpath; [done |].
  destruct Hpath as ([ret tid1] & -> & Hans & Hpath).
  apply win32_create_thread_answer in Hans as [(Hret & Htid & ->) | (Hret & ->)];
    simpl in *; rewrite Hret in Hpath; simpl in Hpath.
  - (* no thread: the failure is logged, the result is 1 *)
    destruct tr as [| [o2 sp2] tr]; simpl in Hpath; [done |].
    destruct Hpath as (msg & -> & Hans2 & Hpath).
    destruct Hans2 as (? & ? & ? & ? & Hos); simpl in Hos; simplify_eq.
    destruct tr as [| [o3 sp3] tr]; simpl in Hpath; [done |].
    destruct Hpath as (? & -> & Hans3 & Hpath).
    destruct Hans3 as (? & ? & ? & ? & Hos); simpl in Hos; simplify_eq.
    destruct tr as [| [o4 sp4] tr]; simpl in Hpath; [| done].
    unfold c_eq in Hpath. rewrite Hret in Hpath. simplify_eq. simpl. auto.
  - (* a thread was created: the result is 0 *)
    destruct tr as [| [o2 sp2] tr]; simpl in Hpath; [| done].
    unfold c_eq in Hpath. rewrite Hret in Hpath. simplify_eq. simpl. auto.
Qed.

(** *** The loader *)

Lemma win32_dlsym_missing (t : tid) (s : os_state) (handle : DLHANDLE) (n : nat)
    (exports : gmap string Z) (name : string) :
  loaded s !! handle = Some (n, exports) -> exports !! name = None ->
  solo os_step t (DLSYM handle name) s = Returned NULL (set_last_error ERROR_PROC_NOT_FOUND s).
Proof. intros Hl He. unfold DLSYM, call. simpl. by rewrite Hl, He. Qed.

Lemma win32_dlsym_found (t : tid) (s : os_state) (handle : DLHANDLE) (n : nat)
    (exports : gmap string Z) (name : string) (f : DLFUNC) :
  loaded s !! handle = Some (n, exports) -> exports !! name = Some f ->
  solo os_step t (DLSYM handle name) s = Returned f s.
Proof. intros Hl He. unfold DLSYM, call. simpl. by rewrite Hl, He. Qed.

Lemma win32_dlsym_missing_again (t : tid) (s : os_state) (handle : DLHANDLE) (n : nat)
    (exports : gmap string Z) (name : string) (k : nat) :
  loaded s !! handle = Some (n, exports) -> exports !! name = None ->
  solo os_step t (repeat_call (Datatypes.S k) (DLSYM handle name)) s
  = Returned (replicate (Datatypes.S k) NULL) (set_last_error ERROR_PROC_NOT_FOUND s).
Proof.
  intros Hl He. revert s Hl. induction k as [| k IH]; intros s Hl.
  - cbn [repeat_call]. rewrite solo_bind. by erewrite win32_dlsym_missing.
  - cbn [repeat_call] in *. rewrite solo_bind. erewrite win32_dlsym_missing by done.
    rewrite solo_bind. by rewrite (IH (set_last_error ERROR_PROC_NOT_FOUND s)).
Qed.
End Win32Facts.

(** * The [linux] platform *)

Section LinuxFacts.
Local Open Scope Z_scope.
Import Linux.

(** *** Waiter lists *)


Lemma find_some_existsb (t : tid) (ws : list cv_waiter) (w : cv_waiter) :
  List.find (is_waiter t) ws = Some w -> existsb (is_waiter t) ws = true.
Proof.
  induction ws as [| w0 ws IH]; simpl; [done |].
  destruct (is_waiter t w0); [done | auto].
Qed.



Lemma woken_wake_nth (n : nat) (ws : list cv_waiter) :
  (length (List.filter w_woken (wake_nth n ws)) <= Datatypes.S (length (List.filter w_woken ws)))%nat.
Proof.
  revert n. induction ws as [| w ws IH]; intros n; simpl; [lia |].
  destruct (w_woken w) eqn:Hw; simpl.
  - rewrite Hw. simpl. specialize (IH n). lia.
  - destruct n; simpl.
    + lia.
    + rewrite Hw. apply IH.
Qed.

Lemma woken_filter_le (t : tid) (ws : list cv_waiter) :
  (length (List.filter w_woken (List.filter (fun w => negb (is_waiter t w)) ws))
   <= length (List.filter w_woken ws))%nat.
Proof.
  induction ws as [| w ws IH]; simpl; [lia |].
  destruct (is_waiter t w); simpl; destruct (w_woken w); simpl; lia.
Qed.

Lemma woken_filter_out (t : tid) (ws : list cv_waiter) (w : cv_waiter) :
  List.find (is_waiter t) ws = Some w -> w_woken w = true ->
  (Datatypes.S (length (List.filter w_woken (List.filter (fun w => negb (is_waiter t w)) ws)))
   <= length (List.filter w_woken ws))%nat.
Proof.
  induction ws as [| w0 ws IH]; simpl; [done |].
  destruct (is_waiter t w0) eqn:Hw0; simpl.
  - intros [= ->] ->. simpl. pose proof (woken_filter_le t ws). lia.
  - intros Hf Hw. specialize (IH Hf Hw). destruct (w_woken w0); simpl; lia.
Qed.

Lemma woken_app_sleeping (ws : list cv_waiter) (t : tid) (mutex : Z) :
  length (List.filter w_woken (ws ++ [CvWaiter t mutex false])) = length (List.filter w_woken ws).
Proof. rewrite List.filter_app. simpl. rewrite length_app. simpl. lia. Qed.

(** *** The mutex around a wait *)

(** Which thread holds a mutex after an entry of the table was set. *)
Ltac owner_cases mutex :=
  unfold holds in *; simpl in *;
  repeat match goal with
    | |- context [<[?m := _]> _ !! mutex] =>
        destruct (decide (m = mutex)) as [-> |];
        [rewrite lookup_insert_eq | rewrite lookup_insert_ne by done]
    | H : context [<[?m := _]> _ !! mutex] |- _ =>
        destruct (decide (m = mutex)) as [-> |];
        [rewrite lookup_insert_eq in H | rewrite lookup_insert_ne in H by done]
    end;
  repeat match goal with
    | H : mutexes ?s !! mutex = _ |- _ => rewrite H in *
    end;
  simpl in *; try congruence.

(** No thread can take a mutex away from the thread that holds it, nor
    make another thread hold one. *)
Lemma linux_holds_stable (t0 t : tid) (mutex : Z) (s s' : os_state) :
  os_moves os_step t0 s s' -> t0 <> t -> holds t mutex s -> holds t mutex s'.
Proof.
  intros (fresh & ch & X & e & [(x & sp & H) | H]) Hne Hm;
    destruct e; os_inv H; eauto; owner_cases mutex.
Qed.

Lemma linux_holds_stable_back (t0 t : tid) (mutex : Z) (s s' : os_state) :
  os_moves os_step t0 s s' -> t0 <> t -> holds t mutex s' -> holds t mutex s.
Proof.
  intros (fresh & ch & X & e & [(x & sp & H) | H]) Hne Hm;
    destruct e; os_inv H; eauto; owner_cases mutex.
Qed.




(** *** Signals and waits *)

Lemma linux_is_wake_not_signal (cond : Z) (l : label oscall) :
  is_wake cond l = true -> is_signal cond l = false.
Proof. destruct l as [t [X e x] sp | t]; [| done]. by destruct e. Qed.

(** One step: a wait that returns 0 uses up one restart, and only a
    successful [pthread_cond_signal] gives one, to one waiter. *)
Lemma linux_step_count (code : fnptr -> prog oscall Z) (t : tid) (ch : nat)
    (c c1 : config oscall os_state Z) (l : label oscall) (cond : Z) :
  pool_step os_step code t ch c = Stepped l c1 ->
  (Nat.b2n (is_wake cond l) + restarted (os c1) cond
   <= Nat.b2n (is_signal cond l) + restarted (os c) cond)%nat.
Proof.
  unfold pool_step, restarted. intros Hs.
  destruct (pool c !! t) as [[r | X e k] |]; try discriminate.
  destruct (os_step _ _ _ _ _ _) as [x s' sp | s' | |] eqn:Hos; try discriminate;
    injection Hs as <- <-; simpl; destruct e; os_inv Hos; try lia;
    repeat match goal with
    | |- context [<[?c0 := _]> _ !! cond] =>
        destruct (Z.eqb_spec c0 cond) as [-> | Hne]; simpl;
        [rewrite lookup_insert_eq | rewrite lookup_insert_ne by done; lia]
    end; rewrite ?andb_false_r; simpl; try lia; unfold waiters in *;
    destruct (conds (os c) !! cond) as [ws |]; simpl in *; try discriminate; try lia;
    rewrite ?woken_app_sleeping; try lia.
  - (* pthread_cond_wait returns 0 *)
    pose proof (woken_filter_out t _ _ ltac:(eassumption) ltac:(eassumption)). lia.
  - pose proof (woken_filter_out t _ _ ltac:(eassumption) ltac:(eassumption)). lia.
  - pose proof (woken_filter_out t _ _ ltac:(eassumption) ltac:(eassumption)). lia.
  - (* pthread_cond_signal restarts a waiter *)
    match goal with |- context [wake_nth ?k ws] => pose proof (woken_wake_nth k ws) end. lia.
Qed.

(** Along an execution, the waits on a condition variable that returned 0
    are at most the successful signals on it, plus the restarts that were
    pending to begin with. *)
Lemma linux_wakes_le_signals (code : fnptr -> prog oscall Z) (c c' : config oscall os_state Z)
    (ls : list (label oscall)) (cond : Z) :
  exec os_step code c ls c' ->
  (count (is_wake cond) ls + restarted (os c') cond
   <= count (is_signal cond) ls + restarted (os c) cond)%nat.
Proof.
  induction 1 as [c | t ch c c1 c2 l ls Hs Hrest IH].
  - unfold count. simpl. lia.
  - pose proof (linux_step_count _ _ _ _ _ _ cond Hs). rewrite !count_cons. lia.
Qed.

(** *** Thread creation *)

(** What [pthread_create] answers decides whether a thread was created. *)
Lemma linux_pthread_create_answer (t : tid) (func : fnptr) (tid0 : Z)
    (x : int * Z) (sp : option fnptr) :
  answered os_step t (pthread_create func tid0) x sp ->
  (x = (EAGAIN, tid0) /\ sp = None) \/ (x.1 = 0 /\ sp = Some func).
Proof.
  intros (fresh & ch & s & s' & H). os_inv H; auto.
Qed.

(** The calls that only report create no thread. *)
Lemma linux_pthread_detach_answer (t : tid) (th : Z) (x : int) (sp : option fnptr) :
  answered os_step t (pthread_detach th) x sp -> sp = None.
Proof. intros (fresh & ch & s & s' & H). by os_inv H. Qed.

Lemma linux_strerror_answer (t : tid) (e : int) (x : string) (sp : option fnptr) :
  answered os_step t (strerror e) x sp -> sp = None.
Proof. intros (fresh & ch & s & s' & H). by os_inv H. Qed.

Lemma linux_meta_error_answer (t : tid) (fmt arg : string) (x : unit) (sp : option fnptr) :
  answered os_step t (META_ERROR fmt arg) x sp -> sp = None.
Proof. intros (fresh & ch & s & s' & H). by os_inv H. Qed.

Lemma linux_thread_create_spawns (code : fnptr -> prog oscall (int * THREAD_T))
    (c c' : config oscall os_state (int * THREAD_T)) (ls : list (label oscall))
    (t : tid) (tid0 : THREAD_T) (func : fnptr) (r : int) (tid' : THREAD_T) :
  pool c !! t = Some (THREAD_CREATE tid0 func) ->
  exec os_step code c ls c' ->
  pool c' !! t = Some (Ret (r, tid')) ->
  (r = 0 /\ spawned_by t ls = [func] /\ omap log_fmt (tview t ls) = [])
  \/ (r <> 0 /\ spawned_by t ls = []
      /\ omap log_fmt (tview t ls) = ["Failure starting thread: %s"%string])
  \/ (r <> 0 /\ spawned_by t ls = [func]
      /\ omap log_fmt (tview t ls) = ["Failure detaching thread: %s"%string]).
Proof.
  intros Hp Hex Hr.
  destruct (exec_tview os_step code t _ _ _ Hex _ Hp) as (p' & Hp' & Hpath).
  rewrite Hr in Hp'. injection Hp' as <-.
  unfold spawned_by. unfold THREAD_CREATE, call in Hpath.
  destruct (tview t ls) as [| [o1 sp1] tr]; simpl in Hpath; [done |].
  destruct Hpath as ([ret tid1] & -> & Hans & Hpath).
  apply linux_pthread_create_answer in Hans as [([= -> ->] & ->) | (Hret & ->)];
    simpl in *.
  - (* no thread: the failure is logged and returned *)
    destruct tr as [| [o2 sp2] tr]; simpl in Hpath; [done |].
    destruct Hpath as (msg & -> & Hans2 & Hpath).
    apply linux_strerror_answer in Hans2 as ->.
    destruct tr as [| [o3 sp3] tr]; simpl in Hpath; [done |].
    destruct Hpath as (? & -> & Hans3 & Hpath).
    apply linux_meta_error_answer in Hans3 as ->.
    destruct tr as [| [o4 sp4] tr]; simpl in Hpath; [| done].
    simplify_eq. right. left. by simpl.
  - (* a thread was created: it is detached next *)
    subst ret. simpl in Hpath.
    destruct tr as [| [o2 sp2] tr]; simpl in Hpath; [done |].
    destruct Hpath as (ret & -> & Hans2 & Hpath).
    apply linux_pthread_detach_answer in Hans2 as ->.
    destruct (Z.eqb_spec ret 0) as [Heq | Hne]; simpl in Hpath.
    + destruct tr as [| [o3 sp3] tr]; simpl in Hpath; [| done].
      simplify_eq. left. by simpl.
    + destruct tr as [| [o3 sp3] tr]; simpl in Hpath; [done |].
      destruct Hpath as (msg & -> & Hans3 & Hpath).
      apply linux_strerror_answer in Hans3 as ->.
      destruct tr as [| [o4 sp4] tr]; simpl in Hpath; [done |].
      destruct Hpath as (? & -> & Hans4 & Hpath).
      apply linux_meta_error_answer in Hans4 as ->.
      destruct tr as [| [o5 sp5] tr]; simpl in Hpath; [| done].
      simplify_eq. right. right. by simpl.
Qed.

(** *** The loader *)

Lemma linux_dlsym_missing (t : tid) (s : os_state) (handle : DLHANDLE) (n : nat)
    (exports : gmap string Z) (name : string) :
  loaded s !! handle = Some (n, exports) -> exports !! name = None ->
  solo os_step t (DLSYM handle name) s
  = Returned NULL
      (set_dl_error (Some (object_name s handle +:+ ": undefined symbol: " +:+ name)) s).
Proof. intros Hl He. unfold DLSYM, call. simpl. by rewrite Hl, He. Qed.

Lemma linux_dlsym_found (t : tid) (s : os_state) (handle : DLHANDLE) (n : nat)
    (exports : gmap string Z) (name : string) (f : DLFUNC) :
  loaded s !! handle = Some (n, exports) -> exports !! name = Some f ->
  solo os_step t (DLSYM handle name) s = Returned f (set_dl_error None s).
Proof. intros Hl He. unfold DLSYM, call. simpl. by rewrite Hl, He. Qed.

Lemma linux_dlsym_missing_again (t : tid) (s : os_state) (handle : DLHANDLE) (n : nat)
    (exports : gmap string Z) (name : string) (k : nat) :
  loaded s !! handle = Some (n, exports) -> exports !! name = None ->
  solo os_step t (repeat_call (Datatypes.S k) (DLSYM handle name)) s
  = Returned (replicate (Datatypes.S k) NULL)
             (set_dl_error (Some (object_name s handle +:+ ": undefined symbol: " +:+ name)) s).
Proof.
  intros Hl He. revert s Hl. induction k as [| k IH]; intros s Hl.
  - cbn [repeat_call]. rewrite solo_bind. by erewrite linux_dlsym_missing.
  - cbn [repeat_call] in *. rewrite solo_bind. erewrite linux_dlsym_missing by done.
    rewrite solo_bind.
    by rewrite (IH (set_dl_error
                      (Some (object_name s handle +:+ ": undefined symbol: " +:+ name)) s)).
Qed.
End LinuxFacts.

(** * Checks of the model on the scenarios *)

Section Scenarios.
Local Open Scope Z_scope.

(** The ready state is what initialisation by thread 0 produces. *)
Example win32_ready_reached :
  solo Win32.os_step 0%nat
    (_ <- Win32.MUTEX_INIT 100 ;; _ <- Win32.MUTEX_LOCK 100 ;; Win32.COND_INIT) win32_fresh
  = Returned (0, 1) win32_ready.
Proof. vm_compute. reflexivity. Qed.

Example win32_wait_alone_blocks :
  exists s, solo Win32.os_step 0%nat (Win32.COND_WAIT 1 100) win32_ready = Suspended s.
Proof. eexists. vm_compute. reflexivity. Qed.

Example win32_wait_signal_wake_run :
  exists ls c, run_sched Win32.os_step (no_code 0) win32_wait_signal_wake win32_pair = Some (ls, c)
               /\ pool c = [Ret 0; Ret 0].
Proof. eexists _, _. split; vm_compute; reflexivity. Qed.

Example win32_bad_cond_run :
  exists ls c, run_sched Win32.os_step (no_code 0) five_steps win32_bad_cond = Some (ls, c)
               /\ pool c = [Ret (-1)]
               /\ Win32.meta_log (os c)
                  = [("cond_wait failed: %s"%string, "The handle is invalid."%string)].
Proof. eexists _, _. repeat split; vm_compute; reflexivity. Qed.

Example linux_wait_signal_wake_run :
  exists ls c, run_sched Linux.os_step (no_code 0) linux_wait_signal_wake linux_pair = Some (ls, c)
               /\ pool c = [Ret 0; Ret 0].
Proof. eexists _, _. split; vm_compute; reflexivity. Qed.

(** A wait with an error-checking mutex the caller does not hold fails at
    once, and the mutex stays free. *)
Example linux_unowned_wait_run :
  exists ls c, run_sched Linux.os_step (no_code 0) three_steps linux_unowned_wait = Some (ls, c)
               /\ pool c = [Ret Linux.EPERM]
               /\ Linux.mutexes (os c) !! 100 = Some Linux.MCheckFree.
Proof. eexists _, _. repeat split; vm_compute; reflexivity. Qed.

(** A wait on an address where no condition variable was initialised
    blocks like any other, with the mutex released. *)
Example linux_wait_zeroed_blocks :
  exists s, solo Linux.os_step 0%nat (Linux.COND_WAIT 300 100) linux_ready = Suspended s
            /\ Linux.mutexes s !! 100 = Some Linux.MFree.
Proof. eexists. split; vm_compute; reflexivity. Qed.

(** A second lock of an error-checking mutex by its owner is refused. *)
Example linux_relock_run :
  exists ls c, run_sched Linux.os_step (no_code 0) three_steps linux_relock = Some (ls, c)
               /\ pool c = [Ret Linux.EDEADLK]
               /\ Linux.meta_log (os c)
                  = [("mutex_lock failed: %s"%string, "Resource deadlock avoided"%string)].
Proof. eexists _, _. repeat split; vm_compute; reflexivity. Qed.

Example win32_session_run :
  exists s, solo Win32.os_step 0%nat win32_session win32_with_disk
            = Returned (65536, 65792, 0, 0, "The specified module could not be found."%string) s
            /\ Win32.loaded s = ∅.
Proof. eexists. split; vm_compute; reflexivity. Qed.

Example linux_session_run :
  exists s, solo Linux.os_step 0%nat linux_session linux_with_disk
            = Returned (65536, 65792, 0, 0,
                        Some ("missing.so: cannot open shared object file: "
                              +:+ "No such file or directory")) s
            /\ Linux.loaded s = ∅.
Proof. eexists. split; vm_compute; reflexivity. Qed.

Example linux_error_slot_run :
  exists s, solo Linux.os_step 0%nat linux_error_slot linux_with_disk
            = Returned (Some "plugin.so: undefined symbol: nonexistent_symbol"%string,
                        None, None) s.
Proof. eexists. vm_compute. reflexivity. Qed.

Example linux_checked_misuse_run :
  exists s, solo Linux.os_step 0%nat linux_checked_misuse linux_checked
            = Returned [Linux.EPERM; 0; Linux.EDEADLK; 0; Linux.EPERM] s
            /\ Linux.mutexes s !! 100 = Some Linux.MCheckFree.
Proof. eexists. split; vm_compute; reflexivity. Qed.

Example win32_creator_run :
  exists ls c, run_sched Win32.os_step (no_code (0, 0)) [(0, 0)]%nat win32_creator = Some (ls, c)
               /\ pool c = [Ret (0, 1); Ret (0, 0)]
               /\ spawned_by 0%nat ls = [4096].
Proof. eexists _, _. repeat split; vm_compute; reflexivity. Qed.
End Scenarios.

(** * The specification, property by property *)

Section SafeInvokerClaims.
Import SafeInvoker.

(** C1.  Modelled from the spec (the body of [os_safe_call] is not in
    osdep.h).  For every function pointer, when the callee raises a
    synchronous fatal fault during the call, [os_safe_call] answers
    [Faulted]; the host is then still running, with the fault boundary
    released, and a further call on a well-behaved function answers
    [Completed]. *)
Theorem safe_call_contains_fault (M : Type) (bad good : REG_CMD_FN M) (h : host M)
    (f : fault) (m : M) :
  running h = true ->
  bad (memory h) = Faults f m ->
  (forall m0, exists m1, good m0 = Returns m1) ->
  (os_safe_call bad h).1 = Some Faulted
  /\ running (os_safe_call bad h).2 = true
  /\ armed (os_safe_call bad h).2 = false
  /\ (os_safe_call good (os_safe_call bad h).2).1 = Some Completed.
Proof.
  intros Hrun Hbad Hgood.
  unfold os_safe_call, transition, raise, establish, release. rewrite Hrun. simpl.
  rewrite Hbad. simpl.
  destruct (Hgood m) as [m1 ->]. done.
Qed.

Lemma safe_call_contains_fault_witness :
  (os_safe_call bad_callee idle_host).1 = Some Faulted
  /\ running (os_safe_call bad_callee idle_host).2 = true
  /\ armed (os_safe_call bad_callee idle_host).2 = false
  /\ (os_safe_call good_callee (os_safe_call bad_callee idle_host).2).1 = Some Completed.
Proof.
  apply (safe_call_contains_fault nat bad_callee good_callee idle_host InvalidMemoryAccess 0%nat).
  - reflexivity.
  - reflexivity.
  - intros m0. exists (Datatypes.S m0). reflexivity.
Defined.

(** Without the boundary the same fault terminates the host. *)
Example plain_call_is_fatal :
  plain_call bad_callee idle_host = (None, Host false false 0%nat).
Proof. reflexivity. Qed.
End SafeInvokerClaims.

Section EncodingClaims.
Local Open Scope Z_scope.

(** C6.  For each of DLCLOSE, THREAD_CREATE, MUTEX_INIT/LOCK/UNLOCK and
    COND_INIT/WAIT/SIGNAL, under both backings and whatever the platform
    answers, the result is 0 exactly when no platform call reported failure
    (a failure being told by the call's own convention), and non-zero
    otherwise.  In particular the [_WIN32] DLCLOSE makes the single call
    FreeLibrary and returns its answer negated. *)
Theorem result_encoding_uniform (p : primitive) :
  (forall tr r, runs (win32_int p) tr r ->
     (r = 0 <-> existsb Win32.native_failed tr = false))
  /\ (forall tr r, runs (linux_int p) tr r ->
        (r = 0 <-> existsb Linux.native_failed tr = false))
  /\ (forall handle tr r, runs (Win32.DLCLOSE handle) tr r ->
        exists x, tr = [Obs _ (Win32.FreeLibrary handle) x]
                  /\ r = c_not x /\ (r = 0 <-> x <> 0)).
Proof.
  split; [| split].
  - intros tr r. apply win32_encoding.
  - intros tr r. apply linux_encoding.
  - intros handle tr r H. runs_all H. eexists. split; [done |]. split; [done |].
    unfold c_not. destruct (Z.eqb_spec x 0); split; intros; congruence || lia.
Qed.

Lemma result_encoding_uniform_witness :
  (0 = 0 <-> existsb Win32.native_failed [Obs _ (Win32.FreeLibrary 65536) 1] = false)
  /\ (22 = 0 <-> existsb Linux.native_failed
                   [Obs _ (Linux.pthread_mutex_lock 100) 22;
                    Obs _ (Linux.strerror 22) "Invalid argument"%string;
                    Obs _ (Linux.META_ERROR "mutex_lock failed: %s" "Invalid argument") tt]
                 = false).
Proof.
  split.
  - apply (proj1 (result_encoding_uniform (P_DLCLOSE 65536))).
    repeat constructor.
  - apply (proj1 (proj2 (result_encoding_uniform (P_MUTEX_LOCK 100)))).
    unfold linux_int, Linux.MUTEX_LOCK, call. simpl.
    apply (runs_vis (Linux.pthread_mutex_lock 100) _ 22). simpl.
    apply (runs_vis (Linux.strerror 22) _ "Invalid argument"%string). simpl.
    apply (runs_vis (Linux.META_ERROR _ _) _ tt). simpl.
    constructor.
Defined.

(** C8.  For every operation of Mutex, ConditionVariable and ThreadRunner,
    under both backings: the operation returns to its caller whatever the
    platform answers, and when a platform call reported failure the result
    is non-zero and a message was logged through META_ERROR.  The wrappers
    make no call that ends the process. *)
Theorem failures_logged_and_returned (p : primitive) :
  is_sync p = true ->
  (forall tr r, runs (win32_int p) tr r -> existsb Win32.native_failed tr = true ->
     r <> 0 /\ existsb Win32.is_log tr = true)
  /\ (forall tr r, runs (linux_int p) tr r -> existsb Linux.native_failed tr = true ->
        r <> 0 /\ existsb Linux.is_log tr = true)
  /\ (forall a, runs (win32_int p) (play a (win32_int p)).1 (play a (win32_int p)).2)
  /\ (forall a, runs (linux_int p) (play a (linux_int p)).1 (play a (linux_int p)).2).
Proof.
  intros Hp. split; [| split; [| split]].
  - intros tr r H Hf.
    assert (r <> 0) as Hr.
    { intros Hr. apply (win32_encoding p tr r H) in Hr. congruence. }
    split; [done |]. by apply (win32_failure_logged p tr r Hp H).
  - intros tr r H Hf.
    assert (r <> 0) as Hr.
    { intros Hr. apply (linux_encoding p tr r H) in Hr. congruence. }
    split; [done |]. by apply (linux_failure_logged p tr r Hp H).
  - intros a. apply play_runs.
  - intros a. apply play_runs.
Qed.

Lemma failures_logged_and_returned_witness :
  (-1 <> 0
   /\ existsb Win32.is_log
        [Obs _ (Win32.LeaveCriticalSection 100) tt;
         Obs _ (Win32.WaitForSingleObject 0 Win32.INFINITE) Win32.WAIT_FAILED;
         Obs _ (Win32.EnterCriticalSection 100) tt;
         Obs _ Win32.str_GetLastError "The handle is invalid."%string;
         Obs _ (Win32.META_ERROR "cond_wait failed: %s" "The handle is invalid.") tt] = true).
Proof.
  apply (proj1 (failures_logged_and_returned (P_COND_WAIT 0 100) eq_refl)).
  - unfold win32_int, Win32.COND_WAIT, call. simpl.
    apply (runs_vis (Win32.LeaveCriticalSection 100) _ tt). simpl.
    apply (runs_vis (Win32.WaitForSingleObject 0 Win32.INFINITE) _ Win32.WAIT_FAILED). simpl.
    apply (runs_vis (Win32.EnterCriticalSection 100) _ tt). simpl.
    apply (runs_vis Win32.str_GetLastError _ "The handle is invalid."%string). simpl.
    apply (runs_vis (Win32.META_ERROR _ _) _ tt). simpl.
    constructor.
  - reflexivity.
Defined.

(** C9.  Under [_WIN32], MUTEX_INIT, MUTEX_LOCK and MUTEX_UNLOCK return
    THREAD_OK on every run: the one call each makes answers nothing (the
    critical-section routines return void), no call can report failure and
    nothing is logged. *)
Theorem win32_mutex_always_ok (mutex : Z) (tr : list (obs Win32.oscall)) (r : Z) :
  runs (Win32.MUTEX_INIT mutex) tr r
  \/ runs (Win32.MUTEX_LOCK mutex) tr r
  \/ runs (Win32.MUTEX_UNLOCK mutex) tr r ->
  r = Win32.THREAD_OK
  /\ existsb Win32.native_failed tr = false
  /\ existsb Win32.is_log tr = false.
Proof.
  intros [H | [H | H]]; runs_all H; done.
Qed.

Lemma win32_mutex_always_ok_witness :
  0 = Win32.THREAD_OK
  /\ existsb Win32.native_failed [Obs _ (Win32.EnterCriticalSection 100) tt] = false
  /\ existsb Win32.is_log [Obs _ (Win32.EnterCriticalSection 100) tt] = false.
Proof.
  apply (win32_mutex_always_ok 100 [Obs _ (Win32.EnterCriticalSection 100) tt] 0).
  right. left. repeat constructor.
Defined.
End EncodingClaims.

Section ConditionVariableClaims.
Local Open Scope Z_scope.

(** C2.  The lost wakeup does not happen under [_WIN32]: thread 1 signals
    while nobody waits (thread 0 has not begun its wait), the signal
    completes, and the wait that thread 0 begins afterwards returns 0
    although no signal follows it. *)
Lemma lost_wakeup_counterexample :
  exists ls1 c1 ls2 c2,
    run_sched Win32.os_step (no_code 0) win32_signal_first win32_pair = Some (ls1, c1)
    /\ pool c1 !! 1%nat = Some (Ret 0)
    /\ pool c1 !! 0%nat = Some (Win32.COND_WAIT 1 100)
    /\ run_sched Win32.os_step (no_code 0) win32_then_wait c1 = Some (ls2, c2)
    /\ pool c2 !! 0%nat = Some (Ret 0)
    /\ count (Win32.is_set 1) ls2 = 0%nat.
Proof. eexists _, _, _, _. repeat split; vm_compute; reflexivity. Qed.

(** C2, amended.  Under [_WIN32] a signal is remembered by the event, as a
    single pending wakeup: COND_SIGNAL leaves the auto-reset event signaled
    whether or not a thread waits, a second signal changes nothing, the next
    COND_WAIT returns 0 without blocking and resets the event, and the
    COND_WAIT after that blocks. *)
Theorem signal_is_remembered (t t' : tid) (s : Win32.os_state) (h mutex : Z)
    (b : bool) (n : nat) :
  Win32.kobj s h = Some (Win32.KEvent false b) ->
  Win32.critsecs s !! mutex = Some (Win32.CsOwned t' n) ->
  exists s1 s2 s3,
    solo Win32.os_step t (Win32.COND_SIGNAL h) s = Returned 0 s1
    /\ Win32.signaled s1 h = true
    /\ solo Win32.os_step t (Win32.COND_SIGNAL h) s1 = Returned 0 s1
    /\ solo Win32.os_step t' (Win32.COND_WAIT h mutex) s1 = Returned 0 s2
    /\ Win32.signaled s2 h = false
    /\ solo Win32.os_step t' (Win32.COND_WAIT h mutex) s2 = Suspended s3.
Proof.
  intros Hk Hm.
  set (s1 := Win32.set_handles (<[Win32.slot h := Win32.KEvent false true]>) s).
  assert (Win32.kobj s1 h = Some (Win32.KEvent false true)) as Hk1
    by (by eapply kobj_insert_eq).
  destruct (win32_wait_solo_signaled t' s1 h mutex n Hk1 Hm) as (s2 & Hw & Hk2 & Hm2).
  destruct (win32_wait_solo_unsignaled t' s2 h mutex n Hk2 Hm2) as (s3 & Hw3).
  exists s1, s2, s3. repeat split.
  - by eapply win32_signal_solo.
  - unfold Win32.signaled. by rewrite Hk1.
  - erewrite win32_signal_solo by done. f_equal. unfold s1, Win32.set_handles. simpl.
    by rewrite list_insert_insert_eq.
  - done.
  - unfold Win32.signaled. by rewrite Hk2.
  - done.
Qed.

Lemma signal_is_remembered_witness :
  exists s1 s2 s3,
    solo Win32.os_step 1%nat (Win32.COND_SIGNAL 1) win32_ready = Returned 0 s1
    /\ Win32.signaled s1 1 = true
    /\ solo Win32.os_step 1%nat (Win32.COND_SIGNAL 1) s1 = Returned 0 s1
    /\ solo Win32.os_step 0%nat (Win32.COND_WAIT 1 100) s1 = Returned 0 s2
    /\ Win32.signaled s2 1 = false
    /\ solo Win32.os_step 0%nat (Win32.COND_WAIT 1 100) s2 = Suspended s3.
Proof.
  apply (signal_is_remembered 1%nat 0%nat win32_ready 1 100 false 0%nat); reflexivity.
Defined.




(** C5.  Under both backings a signal wakes at most one waiter: along any
    execution the waits on a condition variable that were released are at
    most the successful signals on it (plus what was pending at the start:
    the signaled state of the [_WIN32] event, the waiters already restarted
    under [linux]); and each COND_SIGNAL makes exactly one native signal
    call. *)
Theorem signal_wakes_at_most_one :
  (forall (code : fnptr -> prog Win32.oscall Z) (c c' : config Win32.oscall Win32.os_state Z)
          (ls : list (label Win32.oscall)) (h : Z),
      Win32.auto_reset (os c) h ->
      exec Win32.os_step code c ls c' ->
      (count (Win32.is_wake h) ls + Nat.b2n (Win32.signaled (os c') h)
       <= count (Win32.is_set h) ls + Nat.b2n (Win32.signaled (os c) h))%nat)
  /\ (forall (code : fnptr -> prog Linux.oscall Z) (c c' : config Linux.oscall Linux.os_state Z)
             (ls : list (label Linux.oscall)) (cond : Z),
         exec Linux.os_step code c ls c' ->
         (count (Linux.is_wake cond) ls + Linux.restarted (os c') cond
          <= count (Linux.is_signal cond) ls + Linux.restarted (os c) cond)%nat)
  /\ (forall h tr r, runs (Win32.COND_SIGNAL h) tr r ->
         length (List.filter Win32.is_native_signal tr) = 1%nat)
  /\ (forall cond tr r, runs (Linux.COND_SIGNAL cond) tr r ->
         length (List.filter Linux.is_native_signal tr) = 1%nat).
Proof.
  split; [| split; [| split]].
  - intros code c c' ls h Ha Hex. by apply (win32_wakes_le_sets code c c' ls h Hex Ha).
  - intros code c c' ls cond Hex. by apply (linux_wakes_le_signals code).
  - intros h tr r H. runs_all H; done.
  - intros cond tr r H. runs_all H; done.
Qed.

Lemma signal_wakes_at_most_one_witness :
  (count (Win32.is_wake 1%Z) (run_labels Win32.os_step (no_code 0%Z) win32_wait_signal_wake win32_pair)
   + Nat.b2n (Win32.signaled
                (os (run_final Win32.os_step (no_code 0%Z) win32_wait_signal_wake win32_pair)) 1)
   <= count (Win32.is_set 1%Z) (run_labels Win32.os_step (no_code 0%Z) win32_wait_signal_wake win32_pair)
      + Nat.b2n (Win32.signaled (os win32_pair) 1%Z))%nat.
Proof.
  apply (proj1 signal_wakes_at_most_one (no_code 0%Z) win32_pair).
  - exists false. reflexivity.
  - apply run_exec. vm_compute. eexists. reflexivity.
Defined.

(** C10.  Under [_WIN32] a successful COND_INIT leaves behind its handle an
    event that is auto-reset and unsignaled.  A COND_WAIT on it blocks, and
    in any execution from there a wait on the event is released only after
    some SetEvent on it has succeeded: a new condition variable carries no
    pending wakeup. *)
Theorem cond_init_unsignaled (t : tid) (s s' : Win32.os_state) (h : Z) :
  solo Win32.os_step t Win32.COND_INIT s = Returned (0, h) s' ->
  Win32.kobj s' h = Some (Win32.KEvent false false)
  /\ (forall (t' : tid) (mutex : Z) (n : nat),
         Win32.critsecs s' !! mutex = Some (Win32.CsOwned t' n) ->
         exists s'', solo Win32.os_step t' (Win32.COND_WAIT h mutex) s' = Suspended s'')
  /\ (forall (code : fnptr -> prog Win32.oscall Z) (threads : list (prog Win32.oscall Z))
             (ls1 ls2 : list (label Win32.oscall)) (l : label Win32.oscall)
             (c' : config Win32.oscall Win32.os_state Z),
         exec Win32.os_step code (Config s' threads) (ls1 ++ l :: ls2) c' ->
         Win32.is_wake h l = true ->
         exists l', In l' ls1 /\ Win32.is_set h l' = true).
Proof.
  intros H. apply win32_cond_init_solo in H as [-> ->].
  assert (Win32.kobj (Win32.set_handles (fun l => l ++ [Win32.KEvent false false]) s)
            (Win32.new_handle s) = Some (Win32.KEvent false false)) as Hk.
  { unfold Win32.kobj. simpl. rewrite slot_new_handle.
    destruct (Z.ltb_spec 0 (Win32.new_handle s)) as [_ | Hle].
    - by rewrite list_lookup_middle.
    - unfold Win32.new_handle in Hle. lia. }
  split; [done |]. split.
  - intros t' mutex n Hm. by eapply win32_wait_solo_unsignaled.
  - intros code threads ls1 ls2 l c' Hex Hw.
    eapply win32_wake_needs_set; eauto.
    + by exists false.
    + simpl. unfold Win32.signaled. by rewrite Hk.
Qed.

Lemma cond_init_unsignaled_witness :
  Win32.kobj (Win32.set_handles (fun l => l ++ [Win32.KEvent false false]) win32_fresh) 1
  = Some (Win32.KEvent false false)
  /\ (forall (t' : tid) (mutex : Z) (n : nat),
         Win32.critsecs (Win32.set_handles (fun l => l ++ [Win32.KEvent false false]) win32_fresh)
           !! mutex = Some (Win32.CsOwned t' n) ->
         exists s'', solo Win32.os_step t' (Win32.COND_WAIT 1 mutex)
                       (Win32.set_handles (fun l => l ++ [Win32.KEvent false false]) win32_fresh)
                     = Suspended s'')
  /\ (forall (code : fnptr -> prog Win32.oscall Z) (threads : list (prog Win32.oscall Z))
             (ls1 ls2 : list (label Win32.oscall)) (l : label Win32.oscall)
             (c' : config Win32.oscall Win32.os_state Z),
         exec Win32.os_step code
           (Config (Win32.set_handles (fun l => l ++ [Win32.KEvent false false]) win32_fresh)
                   threads)
           (ls1 ++ l :: ls2) c' ->
         Win32.is_wake 1 l = true ->
         exists l', In l' ls1 /\ Win32.is_set 1 l' = true).
Proof.
  apply (cond_init_unsignaled 0%nat win32_fresh). reflexivity.
Defined.
End ConditionVariableClaims.

Section ThreadClaims.
Local Open Scope Z_scope.

(** C4.  A non-zero result with a thread started, under [linux]: the
    thread is created and runs (here it detaches itself at once), the
    creator's pthread_detach then answers EINVAL, and THREAD_CREATE returns
    that non-zero value although the thread was started and has run its
    entry point. *)
Lemma detach_failure_counterexample :
  exists ls c',
    run_sched Linux.os_step self_detaching linux_detach_race linux_creator = Some (ls, c')
    /\ pool c' !! 0%nat = Some (Ret (Linux.EINVAL, 1))
    /\ spawned_by 0%nat ls = [4096]
    /\ pool c' !! 1%nat = Some (Ret (0, 0))
    /\ Linux.meta_log (os c') = [("Failure detaching thread: %s"%string, "Invalid argument"%string)].
Proof. eexists _, _. repeat split; vm_compute; reflexivity. Qed.

(** C4, amended.  When THREAD_CREATE returns non-zero because the native
    creation call failed, it has started no thread: under [_WIN32] this is
    every non-zero result; under [linux] it is the non-zero result logged
    as a failure to start.  Under [linux] THREAD_CREATE also returns
    non-zero when the thread was created and could not be detached; that
    result is logged as a failure to detach, and the thread was started. *)
Theorem thread_create_failure :
  (forall (code : fnptr -> prog Win32.oscall (Z * Z))
          (c c' : config Win32.oscall Win32.os_state (Z * Z))
          (ls : list (label Win32.oscall)) (t : tid) (tid0 func r tid' : Z),
      pool c !! t = Some (Win32.THREAD_CREATE tid0 func) ->
      exec Win32.os_step code c ls c' ->
      pool c' !! t = Some (Ret (r, tid')) ->
      r <> 0 ->
      spawned_by t ls = [])
  /\ (forall (code : fnptr -> prog Linux.oscall (Z * Z))
            (c c' : config Linux.oscall Linux.os_state (Z * Z))
            (ls : list (label Linux.oscall)) (t : tid) (tid0 func r tid' : Z),
        pool c !! t = Some (Linux.THREAD_CREATE tid0 func) ->
        exec Linux.os_step code c ls c' ->
        pool c' !! t = Some (Ret (r, tid')) ->
        r <> 0 ->
        (spawned_by t ls = []
         /\ omap Linux.log_fmt (tview t ls) = ["Failure starting thread: %s"%string])
        \/ (spawned_by t ls = [func]
            /\ omap Linux.log_fmt (tview t ls) = ["Failure detaching thread: %s"%string])).
Proof.
  split.
  - intros code c c' ls t tid0 func r tid' Hp Hex Hr Hne.
    destruct (win32_thread_create_spawns code c c' ls t tid0 func r tid' Hp Hex Hr)
      as [[? _] | (_ & ? & _)]; done.
  - intros code c c' ls t tid0 func r tid' Hp Hex Hr Hne.
    destruct (linux_thread_create_spawns code c c' ls t tid0 func r tid' Hp Hex Hr)
      as [[? _] | [(_ & ? & ?) | (_ & ? & ?)]]; [done | by left | by right].
Qed.

(** Thread creation fails for want of resources, under each backing. *)
Lemma thread_create_failure_witness :
  spawned_by 0%nat (run_labels Win32.os_step (no_code (0, 0)) [(0, 0); (0, 0); (0, 0)]%nat
                      win32_exhausted) = []
  /\ ((spawned_by 0%nat (run_labels Linux.os_step (no_code (0, 0)) [(0, 0); (0, 0); (0, 0)]%nat
                           linux_exhausted) = []
       /\ omap Linux.log_fmt
            (tview 0%nat (run_labels Linux.os_step (no_code (0, 0)) [(0, 0); (0, 0); (0, 0)]%nat
                            linux_exhausted))
          = ["Failure starting thread: %s"%string])
      \/ (spawned_by 0%nat (run_labels Linux.os_step (no_code (0, 0)) [(0, 0); (0, 0); (0, 0)]%nat
                              linux_exhausted) = [4096]
          /\ omap Linux.log_fmt
               (tview 0%nat (run_labels Linux.os_step (no_code (0, 0))
                               [(0, 0); (0, 0); (0, 0)]%nat linux_exhausted))
             = ["Failure detaching thread: %s"%string])).
Proof.
  split.
  - apply (proj1 thread_create_failure (no_code (0, 0)) win32_exhausted
             (run_final Win32.os_step (no_code (0, 0)) [(0, 0); (0, 0); (0, 0)]%nat
                win32_exhausted)
             _ 0%nat 0 4096 1 0).
    + reflexivity.
    + apply run_exec. vm_compute. eexists. reflexivity.
    + vm_compute. reflexivity.
    + lia.
  - apply (proj2 thread_create_failure (no_code (0, 0)) linux_exhausted
             (run_final Linux.os_step (no_code (0, 0)) [(0, 0); (0, 0); (0, 0)]%nat
                linux_exhausted)
             _ 0%nat 0 4096 Linux.EAGAIN 0).
    + reflexivity.
    + apply run_exec. vm_compute. eexists. reflexivity.
    + vm_compute. reflexivity.
    + unfold Linux.EAGAIN. lia.
Defined.
End ThreadClaims.

Section LoaderClaims.
Local Open Scope Z_scope.

(** C7.  Under both backings, for a handle that is open and a name the
    module does not export, DLSYM returns NULL, the not-found outcome, on
    every one of any number of successive calls.  The call does not fail as
    a load does: the handle stays open with the same exports, so a symbol
    the module exports still resolves afterwards, and what the last-error
    slot reports after the calls is the failed symbol lookup (under [linux]
    with the text of glibc, which the next call that succeeds clears). *)
Theorem resolve_missing_symbol (t : tid) (handle : Z) (n : nat) (exports : gmap string Z)
    (name : string) (k : nat) :
  exports !! name = None ->
  (forall s, Win32.loaded s !! handle = Some (n, exports) ->
     exists s',
       solo Win32.os_step t (repeat_call (Datatypes.S k) (Win32.DLSYM handle name)) s
       = Returned (replicate (Datatypes.S k) Win32.NULL) s'
       /\ Win32.loaded s' = Win32.loaded s
       /\ Win32.last_error s' = Win32.ERROR_PROC_NOT_FOUND
       /\ (forall name' f, exports !! name' = Some f ->
             solo Win32.os_step t (Win32.DLSYM handle name') s' = Returned f s'))
  /\ (forall s, Linux.loaded s !! handle = Some (n, exports) ->
        exists s',
          solo Linux.os_step t (repeat_call (Datatypes.S k) (Linux.DLSYM handle name)) s
          = Returned (replicate (Datatypes.S k) Linux.NULL) s'
          /\ Linux.loaded s' = Linux.loaded s
          /\ Linux.dl_error s'
             = Some (Linux.object_name s handle +:+ ": undefined symbol: " +:+ name)
          /\ (forall name' f, exports !! name' = Some f ->
                solo Linux.os_step t (Linux.DLSYM handle name') s'
                = Returned f (Linux.set_dl_error None s'))).
Proof.
  intros He. split; intros s Hl; eexists; (split; [| split; [| split]]).
  - by eapply win32_dlsym_missing_again.
  - done.
  - done.
  - intros name' f Hf. by eapply win32_dlsym_found.
  - by eapply linux_dlsym_missing_again.
  - done.
  - done.
  - intros name' f Hf. by eapply linux_dlsym_found.
Qed.

Lemma resolve_missing_symbol_witness :
  (forall s, Win32.loaded s !! 65536 = Some (0%nat, plugin_exports) ->
     exists s',
       solo Win32.os_step 0%nat (repeat_call 3 (Win32.DLSYM 65536 "nonexistent_symbol")) s
       = Returned (replicate 3 Win32.NULL) s'
       /\ Win32.loaded s' = Win32.loaded s
       /\ Win32.last_error s' = Win32.ERROR_PROC_NOT_FOUND
       /\ (forall name' f, plugin_exports !! name' = Some f ->
             solo Win32.os_step 0%nat (Win32.DLSYM 65536 name') s' = Returned f s'))
  /\ (forall s, Linux.loaded s !! 65536 = Some (0%nat, plugin_exports) ->
        exists s',
          solo Linux.os_step 0%nat (repeat_call 3 (Linux.DLSYM 65536 "nonexistent_symbol")) s
          = Returned (replicate 3 Linux.NULL) s'
          /\ Linux.loaded s' = Linux.loaded s
          /\ Linux.dl_error s'
             = Some (Linux.object_name s 65536 +:+ ": undefined symbol: "
                     +:+ "nonexistent_symbol")
          /\ (forall name' f, plugin_exports !! name' = Some f ->
                solo Linux.os_step 0%nat (Linux.DLSYM 65536 name') s'
                = Returned f (Linux.set_dl_error None s'))).
Proof.
  apply (resolve_missing_symbol 0%nat 65536 0%nat plugin_exports "nonexistent_symbol" 2).
  reflexivity.
Defined.

(** The scenario with the plugin: a missing symbol three times, then the
    exported one. *)
Example plugin_resolution :
  solo Win32.os_step 0%nat
    (l <- repeat_call 3 (Win32.DLSYM 65536 "nonexistent_symbol") ;;
     f <- Win32.DLSYM 65536 "Meta_Query" ;;
     Ret (l, f)) win32_with_plugin
  = Returned ([0; 0; 0], 65792) (Win32.set_last_error Win32.ERROR_PROC_NOT_FOUND win32_with_plugin)
  /\ solo Linux.os_step 0%nat
       (l <- repeat_call 3 (Linux.DLSYM 65536 "nonexistent_symbol") ;;
        f <- Linux.DLSYM 65536 "Meta_Query" ;;
        Ret (l, f)) linux_with_plugin
     = Returned ([0; 0; 0], 65792) linux_with_plugin.
Proof. split; vm_compute; reflexivity. Qed.
End LoaderClaims.

(** * Further properties of the code *)

Section FileModes.
Local Open Scope Z_scope.

Lemma S_ISREG_through_type (m : Z) : S_ISREG m = Z.land (Z.land m S_IFMT) S_IFREG.
Proof. unfold S_ISREG. by rewrite <- Z.land_assoc. Qed.

Lemma S_ISREG_bit (m : Z) : S_ISREG m = if Z.testbit m 15 then S_IFREG else 0.
Proof.
  unfold S_ISREG, S_IFREG. change 32768 with (2 ^ 15).
  destruct (Z.testbit m 15) eqn:Hb; apply Z.bits_inj'; intros n Hn;
    rewrite Z.land_spec, ?Z.bits_0, Z.pow2_bits_eqb by lia;
    destruct (Z.eqb_spec 15 n) as [<- | Hne]; rewrite ?Hb, ?andb_false_r; done.
Qed.

(** X1.  The fallback S_ISREG answers the bit S_IFREG or 0, never 1.  For a
    mode whose type is regular file, directory, character device or FIFO
    (the types the platforms without S_ISREG have) it is non-zero exactly
    for a regular file.  For the types whose code also has that bit set,
    symbolic link and socket, it is non-zero as well. *)
Theorem S_ISREG_fallback (m : Z) :
  (S_ISREG m = 0 \/ S_ISREG m = S_IFREG)
  /\ (Z.land m S_IFMT = S_IFREG \/ Z.land m S_IFMT = S_IFDIR
      \/ Z.land m S_IFMT = S_IFCHR \/ Z.land m S_IFMT = S_IFIFO ->
      (S_ISREG m <> 0 <-> Z.land m S_IFMT = S_IFREG))
  /\ (Z.land m S_IFMT = S_IFLNK \/ Z.land m S_IFMT = S_IFSOCK -> S_ISREG m = S_IFREG).
Proof.
  split; [| split].
  - rewrite S_ISREG_bit. destruct (Z.testbit m 15); auto.
  - rewrite S_ISREG_through_type. intros [H | [H | [H | H]]]; rewrite H; by vm_compute.
  - rewrite S_ISREG_through_type. intros [H | H]; rewrite H; by vm_compute.
Qed.

(** A symbolic link with mode 0120777, a directory with mode 0040755. *)
Lemma S_ISREG_fallback_witness :
  (S_ISREG 16877 <> 0 <-> Z.land 16877 S_IFMT = S_IFREG) /\ S_ISREG 41471 = S_IFREG.
Proof.
  split.
  - apply (proj1 (proj2 (S_ISREG_fallback 16877))). right. left. reflexivity.
  - apply (proj2 (proj2 (S_ISREG_fallback 41471))). left. reflexivity.
Defined.
End FileModes.

Section MutexProperties.
Local Open Scope Z_scope.

Lemma win32_lock_own (t : tid) (mutex : Z) (pt : win32_lock_point)
    (fresh : tid) (ch : nat) (s : Win32.os_state) :
  win32_lock_inv t mutex pt s ->
  match win32_lock_at mutex pt with
  | Ret _ => True
  | Vis e k =>
      match Win32.os_step t fresh ch _ e s with
      | Done x s' _ => exists pt', k x = win32_lock_at mutex pt' /\ win32_lock_inv t mutex pt' s'
      | Internal s' => win32_lock_inv t mutex pt s'
      | _ => True
      end
  end.
Proof.
  intros HI. destruct pt; [| done].
  unfold win32_lock_at, Win32.MUTEX_LOCK, call; cbn [bind].
  destruct (Win32.os_step _ _ _ _ _ _) as [x s' sp | s' | |] eqn:Hos; try done.
  exists WL_done. split; [done |].
  os_inv Hos; unfold Win32.holds; simpl; rewrite lookup_insert_eq; eauto.
Qed.

Lemma win32_lock_reaches (code : fnptr -> prog Win32.oscall Z)
    (c c' : config Win32.oscall Win32.os_state Z) (ls : list (label Win32.oscall))
    (t : tid) (mutex : Z) :
  pool c !! t = Some (Win32.MUTEX_LOCK mutex) ->
  exec Win32.os_step code c ls c' ->
  exists pt, pool c' !! t = Some (win32_lock_at mutex pt) /\ win32_lock_inv t mutex pt (os c').
Proof.
  intros Hp Hexec.
  apply (exec_thread_invariant Win32.os_step code t (win32_lock_at mutex)
           (win32_lock_inv t mutex)) with (c := c) (ls := ls) (pt := WL_start); try done.
  - intros t0 pt s s' Hne Hm HI. destruct pt; [done |]. by eapply win32_holds_stable.
  - intros. by apply win32_lock_own.
Qed.

Lemma linux_lock_own (held : Prop) (t : tid) (mutex : Z) (pt : linux_lock_point)
    (fresh : tid) (ch : nat) (s : Linux.os_state) :
  linux_lock_inv held t mutex pt s ->
  match linux_lock_at mutex pt with
  | Ret _ => True
  | Vis e k =>
      match Linux.os_step t fresh ch _ e s with
      | Done x s' _ =>
          exists pt', k x = linux_lock_at mutex pt' /\ linux_lock_inv held t mutex pt' s'
      | Internal s' => linux_lock_inv held t mutex pt s'
      | _ => True
      end
  end.
Proof.
  intros HI. destruct pt; unfold linux_lock_at, Linux.MUTEX_LOCK, call; cbn [bind].
  - (* in pthread_mutex_lock *)
    destruct (Linux.os_step _ _ _ _ _ _) as [x s' sp | s' | |] eqn:Hos; try done;
      try (by os_inv Hos).
    exists (LL_answered x). split; [done |]. simpl in HI |- *.
    os_inv Hos; unfold Linux.holds in *; simpl;
      rewrite ?lookup_insert_eq; simpl; try done.
    (* EDEADLK: the thread held the mutex already *)
    repeat match goal with H : Linux.mutexes _ !! _ = _ |- _ => rewrite H in * end.
    simpl in *. split; [done |]. intros _. split; [done |]. by apply HI.
  - (* after the call *)
    unfold Linux.THREAD_OK. destruct (ret =? 0); cbn [negb bind]; [done |].
    destruct (Linux.os_step _ _ _ _ _ _) as [x s' sp | s' | |] eqn:Hos; try done;
      try (by os_inv Hos).
    exists (LL_logging ret x). split; [done |]. by os_inv Hos.
  - destruct (Linux.os_step _ _ _ _ _ _) as [x s' sp | s' | |] eqn:Hos; try done;
      try (by os_inv Hos).
    exists (LL_done ret). split; [done |]. by os_inv Hos.
  - done.
Qed.

(** What a thread that has returned from MUTEX_LOCK finds. *)
Lemma linux_lock_returns (code : fnptr -> prog Linux.oscall Z)
    (c c' : config Linux.oscall Linux.os_state Z) (ls : list (label Linux.oscall))
    (t : tid) (mutex r : Z) :
  pool c !! t = Some (Linux.MUTEX_LOCK mutex) ->
  exec Linux.os_step code c ls c' ->
  pool c' !! t = Some (Ret r) ->
  Linux.holds t mutex (os c')
  /\ (r <> 0 -> r = Linux.EDEADLK /\ Linux.holds t mutex (os c)).
Proof.
  intros Hp Hexec Hr.
  destruct (exec_thread_invariant Linux.os_step code t (linux_lock_at mutex)
              (linux_lock_inv (Linux.holds t mutex (os c)) t mutex))
    with (c := c) (c' := c') (ls := ls) (pt := LL_start)
    as (pt' & Hp' & HI'); try done.
  - intros t0 pt s s' Hne Hm HI. destruct pt; simpl in *;
      [intros Hh; apply HI; by eapply linux_holds_stable_back; eauto
      | destruct HI as [H0 H1]; split; [by eapply linux_holds_stable; eauto | done] ..].
  - intros. by apply linux_lock_own.
  - by intros ?.
  - rewrite Hr in Hp'. destruct pt'; simpl in *; try done.
    + unfold Linux.THREAD_OK in Hp'. destruct (Z.eqb_spec ret 0); simpl in Hp'; [| done].
      by simplify_eq.
    + by simplify_eq.
Qed.

(** While a thread is inside MUTEX_LOCK or has returned from it, it is at
    one of the control points. *)
Lemma linux_lock_reaches (code : fnptr -> prog Linux.oscall Z)
    (c c' : config Linux.oscall Linux.os_state Z) (ls : list (label Linux.oscall))
    (t : tid) (mutex : Z) :
  pool c !! t = Some (Linux.MUTEX_LOCK mutex) ->
  exec Linux.os_step code c ls c' ->
  exists pt, pool c' !! t = Some (linux_lock_at mutex pt)
             /\ linux_lock_inv (Linux.holds t mutex (os c)) t mutex pt (os c').
Proof.
  intros Hp Hexec.
  apply (exec_thread_invariant Linux.os_step code t (linux_lock_at mutex)
           (linux_lock_inv (Linux.holds t mutex (os c)) t mutex))
    with (c := c) (ls := ls) (pt := LL_start); try done.
  - intros t0 pt s s' Hne Hm HI. destruct pt; simpl in *;
      [intros Hh; apply HI; by eapply linux_holds_stable_back; eauto
      | destruct HI as [H0 H1]; split; [by eapply linux_holds_stable; eauto | done] ..].
  - intros. by apply linux_lock_own.
  - by intros ?.
Qed.

(** X2.  A thread that returns THREAD_OK from MUTEX_LOCK holds the mutex,
    whatever the state at the call and whatever the other threads did
    while it was blocked and since.  Under [_WIN32] THREAD_OK is the only
    result.  Under [linux] MUTEX_LOCK makes the one call pthread_mutex_lock
    on its argument, returns what that call answered and makes no other
    call on a mutex or a condition variable. *)
Theorem lock_returns_holding :
  (forall (code : fnptr -> prog Win32.oscall Z) (c c' : config Win32.oscall Win32.os_state Z)
          (ls : list (label Win32.oscall)) (t : tid) (mutex r : Z),
      pool c !! t = Some (Win32.MUTEX_LOCK mutex) ->
      exec Win32.os_step code c ls c' ->
      pool c' !! t = Some (Ret r) ->
      r = Win32.THREAD_OK /\ Win32.holds t mutex (os c'))
  /\ (forall (code : fnptr -> prog Linux.oscall Z) (c c' : config Linux.oscall Linux.os_state Z)
            (ls : list (label Linux.oscall)) (t : tid) (mutex r : Z),
         pool c !! t = Some (Linux.MUTEX_LOCK mutex) ->
         exec Linux.os_step code c ls c' ->
         pool c' !! t = Some (Ret r) ->
         r = Linux.THREAD_OK ->
         Linux.holds t mutex (os c'))
  /\ (forall (mutex : Z) (tr : list (obs Linux.oscall)) (r : Z),
         runs (Linux.MUTEX_LOCK mutex) tr r ->
         exists rest,
           tr = Obs _ (Linux.pthread_mutex_lock mutex) r :: rest
           /\ existsb linux_is_sync_call rest = false).
Proof.
  split; [| split].
  - intros code c c' ls t mutex r Hp Hex Hr.
    destruct (win32_lock_reaches code c c' ls t mutex Hp Hex) as (pt & Hpt & HI).
    rewrite Hr in Hpt. destruct pt; simpl in *; [done |]. by simplify_eq.
  - intros code c c' ls t mutex r Hp Hex Hr Hz.
    by apply (linux_lock_returns code c c' ls t mutex r).
  - intros mutex tr r H. runs_all H; eexists; split; reflexivity.
Qed.

(** A lock that succeeds, under each backing. *)
Lemma lock_returns_holding_witness :
  (0 = Win32.THREAD_OK
   /\ Win32.holds 0 100
        (os (run_final Win32.os_step (no_code 0) [(0, 0)]%nat (win32_lockers win32_unlocked 100))))
  /\ Linux.holds 0 100
       (os (run_final Linux.os_step (no_code 0) [(0, 0)]%nat (linux_lockers linux_unlocked 100))).
Proof.
  split.
  - apply (proj1 lock_returns_holding (no_code 0) (win32_lockers win32_unlocked 100) _
             (run_labels Win32.os_step (no_code 0) [(0, 0)]%nat (win32_lockers win32_unlocked 100))
             0%nat 100 0).
    + reflexivity.
    + apply run_exec. vm_compute. eexists. reflexivity.
    + vm_compute. reflexivity.
  - refine (proj1 (proj2 lock_returns_holding) (no_code 0) (linux_lockers linux_unlocked 100)
              (run_final Linux.os_step (no_code 0) [(0, 0)]%nat
                 (linux_lockers linux_unlocked 100))
              (run_labels Linux.os_step (no_code 0) [(0, 0)]%nat
                 (linux_lockers linux_unlocked 100))
              0%nat 100 0 _ _ _ _).
    + reflexivity.
    + apply run_exec. vm_compute. eexists. reflexivity.
    + vm_compute. reflexivity.
    + reflexivity.
Defined.

(** X3.  Mutual exclusion: of two threads that call MUTEX_LOCK on the same
    mutex, once one has returned the other is still inside its MUTEX_LOCK
    and cannot take a step, under either backing and in every
    interleaving. *)
Theorem lock_excludes :
  (forall (code : fnptr -> prog Win32.oscall Z) (c c' : config Win32.oscall Win32.os_state Z)
          (ls : list (label Win32.oscall)) (t t' : tid) (mutex r : Z) (ch : nat),
      t <> t' ->
      pool c !! t = Some (Win32.MUTEX_LOCK mutex) ->
      pool c !! t' = Some (Win32.MUTEX_LOCK mutex) ->
      exec Win32.os_step code c ls c' ->
      pool c' !! t = Some (Ret r) ->
      pool c' !! t' = Some (Win32.MUTEX_LOCK mutex)
      /\ pool_step Win32.os_step code t' ch c' = Waiting)
  /\ (forall (code : fnptr -> prog Linux.oscall Z) (c c' : config Linux.oscall Linux.os_state Z)
             (ls : list (label Linux.oscall)) (t t' : tid) (mutex r : Z) (ch : nat),
         t <> t' ->
         pool c !! t = Some (Linux.MUTEX_LOCK mutex) ->
         pool c !! t' = Some (Linux.MUTEX_LOCK mutex) ->
         exec Linux.os_step code c ls c' ->
         pool c' !! t = Some (Ret r) ->
         pool c' !! t' = Some (Linux.MUTEX_LOCK mutex)
         /\ pool_step Linux.os_step code t' ch c' = Waiting).
Proof.
  split.
  - intros code c c' ls t t' mutex r ch Hne Hp Hp' Hex Hr.
    destruct (win32_lock_reaches code c c' ls t mutex Hp Hex) as (pt & Hpt & HI).
    rewrite Hr in Hpt. destruct pt; simpl in *; [done |]. destruct HI as [n Hn].
    destruct (win32_lock_reaches code c c' ls t' mutex Hp' Hex) as (pt' & Hpt' & HI').
    destruct pt'; simpl in *.
    + split; [done |]. unfold pool_step. rewrite Hpt'. simpl. rewrite Hn.
      by rewrite decide_False.
    + destruct HI' as [n' Hn']. congruence.
  - intros code c c' ls t t' mutex r ch Hne Hp Hp' Hex Hr.
    destruct (linux_lock_returns code c c' ls t mutex r Hp Hex Hr) as [Hh _].
    destruct (linux_lock_reaches code c c' ls t' mutex Hp' Hex) as (pt' & Hpt' & HI').
    unfold Linux.holds in *.
    destruct pt' as [| ret | ret msg | ret]; simpl in *;
      [| destruct HI' as [Hh' _]; congruence ..].
    split; [done |]. unfold pool_step. rewrite Hpt'. simpl.
    destruct (Linux.mutexes (os c') !! mutex) as [[| o | | o] |]; simpl in *; try done.
    simplify_eq. by rewrite decide_False.
Qed.

Lemma lock_excludes_witness :
  (pool (run_final Win32.os_step (no_code 0) [(0, 0)]%nat (win32_lockers win32_unlocked 100))
     !! 1%nat = Some (Win32.MUTEX_LOCK 100)
   /\ pool_step Win32.os_step (no_code 0) 1 0
        (run_final Win32.os_step (no_code 0) [(0, 0)]%nat (win32_lockers win32_unlocked 100))
      = Waiting)
  /\ (pool (run_final Linux.os_step (no_code 0) [(0, 0)]%nat (linux_lockers linux_unlocked 100))
        !! 1%nat = Some (Linux.MUTEX_LOCK 100)
      /\ pool_step Linux.os_step (no_code 0) 1 0
           (run_final Linux.os_step (no_code 0) [(0, 0)]%nat (linux_lockers linux_unlocked 100))
         = Waiting).
Proof.
  split.
  - apply (proj1 lock_excludes (no_code 0) (win32_lockers win32_unlocked 100) _
             (run_labels Win32.os_step (no_code 0) [(0, 0)]%nat (win32_lockers win32_unlocked 100))
             0%nat 1%nat 100 0 0%nat).
    + lia.
    + reflexivity.
    + reflexivity.
    + apply run_exec. vm_compute. eexists. reflexivity.
    + vm_compute. reflexivity.
  - apply (proj2 lock_excludes (no_code 0) (linux_lockers linux_unlocked 100) _
             (run_labels Linux.os_step (no_code 0) [(0, 0)]%nat (linux_lockers linux_unlocked 100))
             0%nat 1%nat 100 0 0%nat).
    + lia.
    + reflexivity.
    + reflexivity.
    + apply run_exec. vm_compute. eexists. reflexivity.
    + vm_compute. reflexivity.
Defined.

Lemma win32_state_eta (s : Win32.os_state) (m : gmap Z Win32.cs_state) :
  m = Win32.critsecs s -> Win32.set_critsecs (fun _ => m) s = s.
Proof. intros ->. by destruct s. Qed.

Lemma linux_state_eta (s : Linux.os_state) (m : gmap Z Linux.mutex_state) :
  m = Linux.mutexes s -> Linux.set_mutexes (fun _ => m) s = s.
Proof. intros ->. by destruct s. Qed.

(** X4.  A MUTEX_LOCK followed by a MUTEX_UNLOCK by the same thread
    returns THREAD_OK and leaves the platform exactly as it was: from a
    free mutex under either backing, and under [_WIN32] also from a mutex
    the thread already owns, to any depth. *)
Theorem lock_unlock_restores (t : tid) (mutex : Z) :
  (forall s, Win32.critsecs s !! mutex = Some Win32.CsFree
             \/ (exists n, Win32.critsecs s !! mutex = Some (Win32.CsOwned t n)) ->
     solo Win32.os_step t (_ <- Win32.MUTEX_LOCK mutex ;; Win32.MUTEX_UNLOCK mutex) s
     = Returned Win32.THREAD_OK s)
  /\ (forall s, Linux.mutexes s !! mutex = Some Linux.MFree ->
        solo Linux.os_step t (_ <- Linux.MUTEX_LOCK mutex ;; Linux.MUTEX_UNLOCK mutex) s
        = Returned Linux.THREAD_OK s).
Proof.
  split.
  - intros s [H | [n H]]; unfold Win32.MUTEX_LOCK, Win32.MUTEX_UNLOCK, call; simpl;
      rewrite H; simpl; rewrite ?decide_True by done; simpl;
      rewrite lookup_insert_eq; simpl; rewrite ?decide_True by done; simpl;
      f_equal; rewrite <- (win32_state_eta s (Win32.critsecs s)) at 2 by done;
      unfold Win32.set_critsecs; simpl; f_equal;
      rewrite insert_insert_eq; by apply insert_id.
  - intros s H. unfold Linux.MUTEX_LOCK, Linux.MUTEX_UNLOCK, call. simpl.
    rewrite H. simpl. rewrite lookup_insert_eq. simpl. rewrite decide_True by done. simpl.
    f_equal. rewrite <- (linux_state_eta s (Linux.mutexes s)) at 2 by done.
    unfold Linux.set_mutexes. simpl. f_equal.
    rewrite insert_insert_eq. by apply insert_id.
Qed.

Lemma lock_unlock_restores_witness :
  solo Win32.os_step 0%nat (_ <- Win32.MUTEX_LOCK 100 ;; Win32.MUTEX_UNLOCK 100) win32_ready
  = Returned Win32.THREAD_OK win32_ready
  /\ solo Linux.os_step 0%nat (_ <- Linux.MUTEX_LOCK 100 ;; Linux.MUTEX_UNLOCK 100) linux_unlocked
     = Returned Linux.THREAD_OK linux_unlocked.
Proof.
  split.
  - apply (proj1 (lock_unlock_restores 0%nat 100)). right. exists 0%nat. reflexivity.
  - apply (proj2 (lock_unlock_restores 0%nat 100)). reflexivity.
Defined.

(** X5.  A second MUTEX_LOCK by the thread that holds the mutex: under
    [_WIN32] it returns THREAD_OK, and the mutex stays owned, closed to
    the other threads, until the thread has unlocked it as many times;
    under [linux], with a mutex of the default kind, which is what
    MUTEX_INIT creates, the thread blocks in the second call, still holding
    the mutex. *)
Theorem relock_by_owner (t t' : tid) (mutex : Z) :
  t' <> t ->
  (forall s, Win32.critsecs s !! mutex = Some Win32.CsFree ->
     exists s',
       solo Win32.os_step t
         (_ <- Win32.MUTEX_LOCK mutex ;; _ <- Win32.MUTEX_LOCK mutex ;; Win32.MUTEX_UNLOCK mutex) s
       = Returned Win32.THREAD_OK s'
       /\ Win32.holds t mutex s'
       /\ solo Win32.os_step t' (Win32.MUTEX_LOCK mutex) s' = Suspended s'
       /\ solo Win32.os_step t (Win32.MUTEX_UNLOCK mutex) s' = Returned Win32.THREAD_OK s)
  /\ (forall s, Linux.mutexes s !! mutex = Some Linux.MFree ->
        exists s',
          solo Linux.os_step t (_ <- Linux.MUTEX_LOCK mutex ;; Linux.MUTEX_LOCK mutex) s
          = Suspended s'
          /\ Linux.holds t mutex s').
Proof.
  intros Hne. split.
  - intros s H. eexists. unfold Win32.MUTEX_LOCK, Win32.MUTEX_UNLOCK, call. simpl.
    rewrite H. simpl. rewrite !lookup_insert_eq. simpl. rewrite !decide_True by done. simpl.
    rewrite !lookup_insert_eq. simpl. rewrite !decide_True by done. simpl.
    split; [done |]. unfold Win32.holds. simpl. rewrite !lookup_insert_eq. simpl.
    rewrite decide_False by done. rewrite !decide_True by done. simpl.
    split; [eauto |]. split; [done |].
    f_equal. rewrite <- (win32_state_eta s (Win32.critsecs s)) at 2 by done.
    unfold Win32.set_critsecs. simpl. f_equal.
    rewrite !insert_insert_eq. by apply insert_id.
  - intros s H. eexists. unfold Linux.MUTEX_LOCK, call. simpl.
    rewrite H. simpl. rewrite lookup_insert_eq. simpl.
    split; [done |]. unfold Linux.holds. simpl. by rewrite lookup_insert_eq.
Qed.

Lemma relock_by_owner_witness :
  (forall s, Win32.critsecs s !! 100 = Some Win32.CsFree ->
     exists s',
       solo Win32.os_step 0%nat
         (_ <- Win32.MUTEX_LOCK 100 ;; _ <- Win32.MUTEX_LOCK 100 ;; Win32.MUTEX_UNLOCK 100) s
       = Returned Win32.THREAD_OK s'
       /\ Win32.holds 0 100 s'
       /\ solo Win32.os_step 1%nat (Win32.MUTEX_LOCK 100) s' = Suspended s'
       /\ solo Win32.os_step 0%nat (Win32.MUTEX_UNLOCK 100) s' = Returned Win32.THREAD_OK s)
  /\ (forall s, Linux.mutexes s !! 100 = Some Linux.MFree ->
        exists s',
          solo Linux.os_step 0%nat (_ <- Linux.MUTEX_LOCK 100 ;; Linux.MUTEX_LOCK 100) s
          = Suspended s'
          /\ Linux.holds 0 100 s').
Proof.
  apply (relock_by_owner 0%nat 1%nat 100). lia.
Defined.
End MutexProperties.

Section ConditionVariableProperties.
Local Open Scope Z_scope.

(** X6.  A signal is delivered.  Under [_WIN32] COND_WAIT releases the
    mutex and begins its wait in two separate calls; a COND_SIGNAL that
    falls between the two is not lost: the wait that follows returns 0 at
    once, with the mutex taken again and the event reset.  Under [linux] a
    COND_SIGNAL issued while the thread is inside its wait lets the
    COND_WAIT return 0 with the mutex held. *)
Theorem signal_reaches_waiter (ch : nat) (cond mutex : Z) :
  (forall (code : fnptr -> prog Win32.oscall Z) (s : Win32.os_state) (n : nat),
      Win32.kobj s cond = Some (Win32.KEvent false false) ->
      Win32.critsecs s !! mutex = Some (Win32.CsOwned 0 n) ->
      exists ls c',
        run_sched Win32.os_step code (signal_in_the_window ch)
          (win32_waiter_signaler s cond mutex) = Some (ls, c')
        /\ pool c' = [Ret 0; Ret 0]
        /\ Win32.critsecs (os c') !! mutex = Some (Win32.CsOwned 0 n)
        /\ Win32.signaled (os c') cond = false)
  /\ (forall (code : fnptr -> prog Linux.oscall Z) (s : Linux.os_state),
        Linux.conds s !! cond = Some [] ->
        Linux.mutexes s !! mutex = Some (Linux.MLocked 0) ->
        exists ls c',
          run_sched Linux.os_step code (signal_after_wait ch)
            (linux_waiter_signaler s cond mutex) = Some (ls, c')
          /\ pool c' = [Ret 0; Ret 0]
          /\ Linux.holds 0 mutex (os c')
          /\ Linux.conds (os c') !! cond = Some []).
Proof.
  split.
  - intros code s n Hk Hm.
    unfold signal_in_the_window, win32_waiter_signaler, run_sched, pool_step,
      Win32.COND_WAIT, Win32.COND_SIGNAL, call. simpl.
    rewrite Hm. simpl.
    change (Win32.kobj (Win32.set_critsecs ?f ?s0) cond) with (Win32.kobj s0 cond).
    rewrite Hk. simpl.
    assert (Win32.kobj (Win32.set_critsecs
                          <[mutex := match n with
                                     | O => Win32.CsFree
                                     | Datatypes.S n' => Win32.CsOwned 0 n'
                                     end]> s) cond
            = Some (Win32.KEvent false false)) as Hk' by exact Hk.
    erewrite kobj_insert_eq by exact Hk'. simpl.
    rewrite lookup_insert_eq.
    assert (forall s0, Win32.kobj s0 cond = Some (Win32.KEvent false true) ->
              Win32.signaled
                (Win32.set_critsecs <[mutex := Win32.CsOwned 0 n]>
                   (Win32.set_handles <[Win32.slot cond := Win32.KEvent false false]> s0)) cond
              = false) as Hsig.
    { intros s0 H0. unfold Win32.signaled.
      change (Win32.kobj (Win32.set_critsecs ?f ?s1) cond) with (Win32.kobj s1 cond).
      by erewrite kobj_insert_eq. }
    destruct n as [| n]; simpl; rewrite ?decide_True by done; simpl;
      eexists _, _; (split; [reflexivity |]); (split; [done |]); simpl;
      (split; [by rewrite lookup_insert_eq |]);
      apply Hsig; by eapply kobj_insert_eq.
  - intros code s Hc Hm.
    unfold signal_after_wait, linux_waiter_signaler, run_sched, pool_step,
      Linux.COND_WAIT, Linux.COND_SIGNAL, call. simpl.
    unfold Linux.waiters. simpl. rewrite Hc. simpl. rewrite Hm. simpl.
    repeat (unfold Linux.waiters; simpl; rewrite ?lookup_insert_eq; simpl).
    eexists _, _. split; [reflexivity |]. split; [done |]. simpl.
    unfold Linux.holds. simpl. by rewrite !lookup_insert_eq.
Qed.

Lemma signal_reaches_waiter_witness :
  (exists ls c',
      run_sched Win32.os_step (no_code 0) (signal_in_the_window 0)
        (win32_waiter_signaler win32_ready 1 100) = Some (ls, c')
      /\ pool c' = [Ret 0; Ret 0]
      /\ Win32.critsecs (os c') !! 100 = Some (Win32.CsOwned 0 0)
      /\ Win32.signaled (os c') 1 = false)
  /\ (exists ls c',
        run_sched Linux.os_step (no_code 0) (signal_after_wait 0)
          (linux_waiter_signaler linux_ready 200 100) = Some (ls, c')
        /\ pool c' = [Ret 0; Ret 0]
        /\ Linux.holds 0 100 (os c')
        /\ Linux.conds (os c') !! 200 = Some []).
Proof.
  split.
  - apply (proj1 (signal_reaches_waiter 0%nat 1 100) (no_code 0) win32_ready 0%nat);
      reflexivity.
  - apply (proj2 (signal_reaches_waiter 0%nat 200 100) (no_code 0) linux_ready);
      reflexivity.
Defined.

(** X7.  Under [_WIN32] COND_WAIT releases the mutex only if the caller
    has locked it once.  Critical sections count their owner's entries, so
    when the caller has locked the mutex more than once the single
    LeaveCriticalSection of COND_WAIT leaves it owned: the caller blocks in
    its wait still holding the mutex, and any other thread that locks the
    mutex blocks as well. *)
Theorem wait_keeps_relocked_mutex (t t' : tid) (s : Win32.os_state) (cond mutex : Z) (n : nat) :
  t' <> t ->
  Win32.kobj s cond = Some (Win32.KEvent false false) ->
  Win32.critsecs s !! mutex = Some (Win32.CsOwned t (Datatypes.S n)) ->
  exists s',
    solo Win32.os_step t (Win32.COND_WAIT cond mutex) s = Suspended s'
    /\ Win32.critsecs s' !! mutex = Some (Win32.CsOwned t n)
    /\ solo Win32.os_step t' (Win32.MUTEX_LOCK mutex) s' = Suspended s'.
Proof.
  intros Hne Hk Hm. eexists.
  unfold Win32.COND_WAIT, Win32.MUTEX_LOCK, call. simpl.
  rewrite Hm. simpl. rewrite decide_True by done. simpl.
  change (Win32.kobj (Win32.set_critsecs ?f ?s0) cond) with (Win32.kobj s0 cond).
  rewrite Hk. simpl. split; [done |]. simpl. rewrite lookup_insert_eq. split; [done |].
  by rewrite decide_False.
Qed.

Lemma wait_keeps_relocked_mutex_witness :
  exists s',
    solo Win32.os_step 0%nat (Win32.COND_WAIT 1 100)
      (Win32.set_critsecs (insert 100 (Win32.CsOwned 0 1)) win32_ready) = Suspended s'
    /\ Win32.critsecs s' !! 100 = Some (Win32.CsOwned 0 0)
    /\ solo Win32.os_step 1%nat (Win32.MUTEX_LOCK 100) s' = Suspended s'.
Proof.
  apply (wait_keeps_relocked_mutex 0%nat 1%nat
           (Win32.set_critsecs (insert 100 (Win32.CsOwned 0 1)) win32_ready) 1 100 0%nat).
  - lia.
  - reflexivity.
  - reflexivity.
Defined.

(** X8.  A condition variable whose initialisation failed, under
    [_WIN32].  A COND_INIT that fails returns -1 and stores the NULL
    handle; COND_SIGNAL and COND_WAIT on a handle that designates no object
    (NULL among them) return -1 and log, and COND_WAIT does so without
    blocking and with the mutex held as before. *)
Theorem uninitialised_cond_fails (t : tid) (cond mutex : Z) :
  (forall s, Win32.table_full s = true ->
     exists s', solo Win32.os_step t Win32.COND_INIT s = Returned (-1, Win32.NULL) s'
                /\ Win32.kobj s' Win32.NULL = None
                /\ Win32.handles s' = Win32.handles s)
  /\ (forall s n, Win32.kobj s cond = None ->
        Win32.critsecs s !! mutex = Some (Win32.CsOwned t n) ->
        (exists s', solo Win32.os_step t (Win32.COND_SIGNAL cond) s = Returned (-1) s'
                    /\ Win32.meta_log s'
                       = Win32.meta_log s
                         ++ [("cond_signal failed: %s"%string,
                              Win32.error_text Win32.ERROR_INVALID_HANDLE)])
        /\ (exists s', solo Win32.os_step t (Win32.COND_WAIT cond mutex) s = Returned (-1) s'
                       /\ Win32.critsecs s' !! mutex = Some (Win32.CsOwned t n)
                       /\ Win32.meta_log s'
                          = Win32.meta_log s
                            ++ [("cond_wait failed: %s"%string,
                                 Win32.error_text Win32.ERROR_INVALID_HANDLE)])).
Proof.
  split.
  - intros s Hfull. eexists. unfold Win32.COND_INIT, call. simpl. rewrite Hfull. simpl.
    done.
  - intros s n Hk Hm. split.
    + eexists. unfold Win32.COND_SIGNAL, call. simpl. rewrite Hk. simpl. done.
    + unfold Win32.COND_WAIT, call. simpl. rewrite Hm. simpl.
      rewrite decide_True by done. simpl.
      change (Win32.kobj (Win32.set_critsecs ?f ?s0) cond) with (Win32.kobj s0 cond).
      rewrite Hk. simpl. rewrite lookup_insert_eq.
      destruct n as [| n]; simpl; rewrite ?decide_True by done; simpl;
        eexists; (split; [done |]); simpl; by rewrite lookup_insert_eq.
Qed.

Lemma uninitialised_cond_fails_witness :
  (exists s', solo Win32.os_step 0%nat (Win32.COND_SIGNAL 0) win32_ready = Returned (-1) s'
              /\ Win32.meta_log s'
                 = Win32.meta_log win32_ready
                   ++ [("cond_signal failed: %s"%string,
                        Win32.error_text Win32.ERROR_INVALID_HANDLE)])
  /\ (exists s', solo Win32.os_step 0%nat (Win32.COND_WAIT 0 100) win32_ready = Returned (-1) s'
                 /\ Win32.critsecs s' !! 100 = Some (Win32.CsOwned 0 0)
                 /\ Win32.meta_log s'
                    = Win32.meta_log win32_ready
                      ++ [("cond_wait failed: %s"%string,
                           Win32.error_text Win32.ERROR_INVALID_HANDLE)]).
Proof.
  apply (proj2 (uninitialised_cond_fails 0%nat 0 100) win32_ready 0%nat); reflexivity.
Defined.
End ConditionVariableProperties.

Section ThreadProperties.
Local Open Scope Z_scope.

(** What a [_WIN32] THREAD_CREATE that returned 0 was seen to do. *)
Lemma win32_thread_create_view (code : fnptr -> prog Win32.oscall (Z * Z))
    (c c' : config Win32.oscall Win32.os_state (Z * Z))
    (ls : list (label Win32.oscall)) (t : tid) (tid0 func tid' : Z) :
  pool c !! t = Some (Win32.THREAD_CREATE tid0 func) ->
  exec Win32.os_step code c ls c' ->
  pool c' !! t = Some (Ret (0, tid')) ->
  exists h, h <> Win32.NULL
            /\ tview t ls = [(Obs _ (Win32.CreateThread func tid0) (h, tid'), Some func)].
Proof.
  intros Hp Hex Hr.
  destruct (exec_tview Win32.os_step code t _ _ _ Hex _ Hp) as (p' & Hp' & Hpath).
  rewrite Hr in Hp'. injection Hp' as <-.
  unfold Win32.THREAD_CREATE, call in Hpath.
  destruct (tview t ls) as [| [o1 sp1] tr]; simpl in Hpath; [done |].
  destruct Hpath as ([ret tid1] & -> & Hans & Hpath).
  apply win32_create_thread_answer in Hans as [(Hret & Htid & ->) | (Hret & ->)];
    simpl in *; rewrite Hret in Hpath; simpl in Hpath.
  + destruct tr as [| [o2 sp2] tr]; simpl in Hpath; [done |].
    destruct Hpath as (msg & -> & _ & Hpath).
    destruct tr as [| [o3 sp3] tr]; simpl in Hpath; [done |].
    destruct Hpath as (? & -> & _ & Hpath).
    destruct tr as [| [o4 sp4] tr]; simpl in Hpath; [| done].
    unfold c_eq in Hpath. rewrite Hret in Hpath. done.
  + destruct tr as [| [o2 sp2] tr]; simpl in Hpath; [| done].
    injection Hpath as _ ->. exists ret. split; [| done].
    unfold Win32.NULL. by apply Z.eqb_neq.
Qed.

(** X9.  When THREAD_CREATE returns 0 the calls it made are exactly these.
    Under [_WIN32]: one CreateThread, which answered a handle other than
    NULL and started a thread at [func].  Under [linux]: one pthread_create,
    which answered 0 and started a thread at [func], then one
    pthread_detach of the very thread whose identifier is returned through
    [tid], which answered 0.  Nothing is logged. *)
Theorem thread_create_success :
  (forall (code : fnptr -> prog Win32.oscall (Z * Z))
          (c c' : config Win32.oscall Win32.os_state (Z * Z))
          (ls : list (label Win32.oscall)) (t : tid) (tid0 func tid' : Z),
      pool c !! t = Some (Win32.THREAD_CREATE tid0 func) ->
      exec Win32.os_step code c ls c' ->
      pool c' !! t = Some (Ret (0, tid')) ->
      exists h, h <> Win32.NULL
                /\ tview t ls = [(Obs _ (Win32.CreateThread func tid0) (h, tid'), Some func)])
  /\ (forall (code : fnptr -> prog Linux.oscall (Z * Z))
            (c c' : config Linux.oscall Linux.os_state (Z * Z))
            (ls : list (label Linux.oscall)) (t : tid) (tid0 func tid' : Z),
        pool c !! t = Some (Linux.THREAD_CREATE tid0 func) ->
        exec Linux.os_step code c ls c' ->
        pool c' !! t = Some (Ret (0, tid')) ->
        tview t ls = [(Obs _ (Linux.pthread_create func tid0) (0, tid'), Some func);
                      (Obs _ (Linux.pthread_detach tid') 0, None)]).
Proof.
  split.
  - intros code c c' ls t tid0 func tid' Hp Hex Hr.
    by apply (win32_thread_create_view code c c' ls t tid0 func tid').
  - intros code c c' ls t tid0 func tid' Hp Hex Hr.
    destruct (exec_tview Linux.os_step code t _ _ _ Hex _ Hp) as (p' & Hp' & Hpath).
    rewrite Hr in Hp'. injection Hp' as <-.
    unfold Linux.THREAD_CREATE, call in Hpath.
    destruct (tview t ls) as [| [o1 sp1] tr]; simpl in Hpath; [done |].
    destruct Hpath as ([ret tid1] & -> & Hans & Hpath).
    apply linux_pthread_create_answer in Hans as [([= -> ->] & ->) | (Hret & ->)];
      simpl in *.
    + destruct tr as [| [o2 sp2] tr]; simpl in Hpath; [done |].
      destruct Hpath as (msg & -> & _ & Hpath).
      destruct tr as [| [o3 sp3] tr]; simpl in Hpath; [done |].
      destruct Hpath as (? & -> & _ & Hpath).
      destruct tr as [| [o4 sp4] tr]; simpl in Hpath; [| done]. done.
    + subst ret. simpl in Hpath.
      destruct tr as [| [o2 sp2] tr]; simpl in Hpath; [done |].
      destruct Hpath as (ret & -> & Hans2 & Hpath).
      apply linux_pthread_detach_answer in Hans2 as ->.
      destruct (Z.eqb_spec ret 0) as [Heq | Hne]; simpl in Hpath.
      * destruct tr as [| [o3 sp3] tr]; simpl in Hpath; [| done]. by simplify_eq.
      * destruct tr as [| [o3 sp3] tr]; simpl in Hpath; [done |].
        destruct Hpath as (msg & -> & _ & Hpath).
        destruct tr as [| [o4 sp4] tr]; simpl in Hpath; [done |].
        destruct Hpath as (? & -> & _ & Hpath).
        destruct tr as [| [o5 sp5] tr]; simpl in Hpath; [| done]. by simplify_eq.
Qed.

Lemma thread_create_success_witness :
  (exists h, h <> Win32.NULL
             /\ tview 0%nat (run_labels Win32.os_step (no_code (0, 0)) [(0, 0)]%nat win32_creator)
                = [(Obs _ (Win32.CreateThread 4096 0) (h, 1), Some 4096)])
  /\ tview 0%nat (run_labels Linux.os_step (no_code (0, 0)) [(0, 0); (0, 0)]%nat linux_creator)
     = [(Obs _ (Linux.pthread_create 4096 0) (0, 1), Some 4096);
        (Obs _ (Linux.pthread_detach 1) 0, None)].
Proof.
  split.
  - apply (proj1 thread_create_success (no_code (0, 0)) win32_creator
             (run_final Win32.os_step (no_code (0, 0)) [(0, 0)]%nat win32_creator)).
    + reflexivity.
    + apply run_exec. vm_compute. eexists. reflexivity.
    + vm_compute. reflexivity.
  - apply (proj2 thread_create_success (no_code (0, 0)) linux_creator
             (run_final Linux.os_step (no_code (0, 0)) [(0, 0); (0, 0)]%nat linux_creator)).
    + reflexivity.
    + apply run_exec. vm_compute. eexists. reflexivity.
    + vm_compute. reflexivity.
Defined.
End ThreadProperties.

Section LoaderProperties.
Local Open Scope Z_scope.

Lemma win32_loaded_eta (s : Win32.os_state) (m : gmap Z (nat * gmap string Z)) :
  m = Win32.loaded s -> Win32.set_loaded (fun _ => m) s = s.
Proof. intros ->. by destruct s. Qed.

(** X10.  DLOPEN of a module that is on disk and initialises, followed by
    DLCLOSE of the handle it returned: DLOPEN returns the handle of the
    module, DLCLOSE returns 0, and the platform is as before, whether the
    module was not loaded or was loaded already (one reference more, then
    one less).  Under both backings; under [linux] with one difference: an
    error text that was pending for dlerror is gone, since a loader call
    that succeeds clears it. *)
Theorem open_close_restores (t : tid) (filename : string) (img : module_image) :
  img_init_ok img = true ->
  (forall s, Win32.disk s !! filename = Some img ->
     Win32.loaded s !! img_base img = None
     \/ (exists n, Win32.loaded s !! img_base img = Some (n, img_exports img)) ->
     solo Win32.os_step t
       (h <- Win32.DLOPEN filename ;; r <- Win32.DLCLOSE h ;; Ret (h, r)) s
     = Returned (img_base img, 0) s)
  /\ (forall s, Linux.disk s !! filename = Some img ->
        Linux.loaded s !! img_base img = None
        \/ (exists n, Linux.loaded s !! img_base img = Some (n, img_exports img)) ->
        solo Linux.os_step t
          (h <- Linux.DLOPEN filename ;; r <- Linux.DLCLOSE h ;; Ret (h, r)) s
        = Returned (img_base img, 0) (Linux.set_dl_error None s)).
Proof.
  intros Hok. split.
  - intros s Hd Hl. unfold Win32.DLOPEN, Win32.DLCLOSE, call. simpl.
    rewrite Hd, Hok. simpl. rewrite lookup_insert_eq.
    destruct Hl as [Hl | [n Hl]]; rewrite Hl; simpl; f_equal;
      rewrite <- (win32_loaded_eta s (Win32.loaded s)) at 2 by done;
      unfold Win32.set_loaded; simpl; f_equal.
    + by apply delete_insert_id.
    + rewrite insert_insert_eq. by apply insert_id.
  - intros s Hd Hl. unfold Linux.DLOPEN, Linux.DLCLOSE, call. simpl.
    rewrite Hd, Hok. simpl. rewrite lookup_insert_eq.
    destruct Hl as [Hl | [n Hl]]; rewrite Hl; simpl; f_equal;
      unfold Linux.set_dl_error, Linux.set_loaded; simpl; f_equal.
    + by apply delete_insert_id.
    + rewrite insert_insert_eq. by apply insert_id.
Qed.

Lemma open_close_restores_witness :
  solo Win32.os_step 0%nat
    (h <- Win32.DLOPEN "plugin.dll" ;; r <- Win32.DLCLOSE h ;; Ret (h, r)) win32_with_disk
  = Returned (65536, 0) win32_with_disk
  /\ solo Linux.os_step 0%nat
       (h <- Linux.DLOPEN "plugin.so" ;; r <- Linux.DLCLOSE h ;; Ret (h, r)) linux_with_disk
     = Returned (65536, 0) (Linux.set_dl_error None linux_with_disk).
Proof.
  split.
  - apply (proj1 (open_close_restores 0%nat "plugin.dll" (Image 65536 true plugin_exports)
                    eq_refl) win32_with_disk).
    + reflexivity.
    + left. reflexivity.
  - apply (proj2 (open_close_restores 0%nat "plugin.so" (Image 65536 true plugin_exports)
                    eq_refl) linux_with_disk).
    + reflexivity.
    + left. reflexivity.
Defined.

(** X11.  Under [_WIN32] DLCLOSE of a handle that is not open returns 1,
    the negation of the zero FreeLibrary answers, and unloads nothing.  So
    of two DLCLOSE calls on the handle of a module opened once, the first
    returns 0 and the second returns 1. *)
Theorem close_of_closed_handle (t : tid) (handle : Z) :
  (forall s, Win32.loaded s !! handle = None ->
     exists s', solo Win32.os_step t (Win32.DLCLOSE handle) s = Returned 1 s'
                /\ Win32.loaded s' = Win32.loaded s)
  /\ (forall s exports, Win32.loaded s !! handle = Some (0%nat, exports) ->
        exists s', solo Win32.os_step t
                     (r1 <- Win32.DLCLOSE handle ;; r2 <- Win32.DLCLOSE handle ;; Ret (r1, r2)) s
                   = Returned (0, 1) s'
                   /\ Win32.loaded s' = delete handle (Win32.loaded s)).
Proof.
  split.
  - intros s H. eexists. unfold Win32.DLCLOSE, call. simpl. rewrite H. simpl. done.
  - intros s exports H. eexists. unfold Win32.DLCLOSE, call. simpl. rewrite H. simpl.
    rewrite lookup_delete_eq. simpl. done.
Qed.

Lemma close_of_closed_handle_witness :
  (exists s', solo Win32.os_step 0%nat (Win32.DLCLOSE 65536) win32_fresh = Returned 1 s'
              /\ Win32.loaded s' = Win32.loaded win32_fresh)
  /\ (exists s', solo Win32.os_step 0%nat
                   (r1 <- Win32.DLCLOSE 65536 ;; r2 <- Win32.DLCLOSE 65536 ;; Ret (r1, r2))
                   win32_with_plugin
                 = Returned (0, 1) s'
                 /\ Win32.loaded s' = delete 65536 (Win32.loaded win32_with_plugin)).
Proof.
  split.
  - apply (proj1 (close_of_closed_handle 0%nat 65536) win32_fresh). reflexivity.
  - apply (proj2 (close_of_closed_handle 0%nat 65536) win32_with_plugin plugin_exports).
    reflexivity.
Defined.
End LoaderProperties.

Section LoggingProperties.
Local Open Scope Z_scope.

Ltac close_trace :=
  repeat match goal with x : unit |- _ => destruct x end;
  first [ by eexists [], _, _
        | by eexists [_], _, _
        | by eexists [_; _], _, _
        | by eexists [_; _; _], _, _ ].

(** X12.  What a failing operation logs, whatever the platform answers.
    Under [linux] an operation of Mutex, ConditionVariable or ThreadRunner
    that returns non-zero ends with exactly these two calls: strerror of
    the very value it returns, and META_ERROR with the text strerror gave.
    Under [_WIN32] it ends with str_GetLastError and META_ERROR with that
    text, and the value returned is 1 for THREAD_CREATE and -1 for the
    others, not the platform's error code. *)
Theorem failure_text_matches_result (p : primitive) :
  is_sync p = true ->
  (forall tr r, runs (linux_int p) tr r -> r <> 0 ->
     exists pre msg fmt,
       tr = pre ++ [Obs _ (Linux.strerror r) msg; Obs _ (Linux.META_ERROR fmt msg) tt])
  /\ (forall tr r, runs (win32_int p) tr r -> r <> 0 ->
        (exists pre msg fmt,
           tr = pre ++ [Obs _ Win32.str_GetLastError msg; Obs _ (Win32.META_ERROR fmt msg) tt])
        /\ r = match p with P_THREAD_CREATE _ _ => 1 | _ => -1 end).
Proof.
  intros Hp. split.
  - intros tr r H Hr. destruct p; try discriminate; runs_all H;
      unfold Linux.THREAD_OK in *; eqb_cases; simpl in *; try lia; close_trace.
  - intros tr r H Hr. destruct p; try discriminate; runs_all H;
      unfold c_eq, Win32.NULL, Win32.WAIT_OBJECT_0, Win32.THREAD_OK in *;
      eqb_cases; simpl in *; try lia; (split; [close_trace | done]).
Qed.

Lemma failure_text_matches_result_witness :
  exists pre msg fmt,
    [Obs _ (Linux.pthread_mutex_lock 100) 22;
     Obs _ (Linux.strerror 22) "Invalid argument"%string;
     Obs _ (Linux.META_ERROR "mutex_lock failed: %s" "Invalid argument") tt]
    = pre ++ [Obs _ (Linux.strerror 22) msg; Obs _ (Linux.META_ERROR fmt msg) tt].
Proof.
  apply (proj1 (failure_text_matches_result (P_MUTEX_LOCK 100) eq_refl)).
  - unfold linux_int, Linux.MUTEX_LOCK, call. simpl.
    apply (runs_vis (Linux.pthread_mutex_lock 100) _ 22). simpl.
    apply (runs_vis (Linux.strerror 22) _ "Invalid argument"%string). simpl.
    apply (runs_vis (Linux.META_ERROR _ _) _ tt). simpl.
    constructor.
  - lia.
Defined.
End LoggingProperties.

Section CriticalSectionProperties.
Local Open Scope Z_scope.

(** X13.  On every path of the [_WIN32] COND_WAIT, whatever the wait
    answers, the calls on the critical section balance: one
    LeaveCriticalSection, then the wait with an infinite timeout, then one
    EnterCriticalSection, and no further call on a critical section; the
    result is 0 exactly when the wait answered WAIT_OBJECT_0. *)
Theorem wait_leave_enter_balance (cond mutex : Z) (tr : list (obs Win32.oscall)) (r : Z) :
  runs (Win32.COND_WAIT cond mutex) tr r ->
  exists x rest,
    tr = [Obs _ (Win32.LeaveCriticalSection mutex) tt;
          Obs _ (Win32.WaitForSingleObject cond Win32.INFINITE) x;
          Obs _ (Win32.EnterCriticalSection mutex) tt] ++ rest
    /\ existsb win32_is_cs_call rest = false
    /\ (r = 0 <-> x = Win32.WAIT_OBJECT_0).
Proof.
  intros H. runs_all H; repeat match goal with x : unit |- _ => destruct x end;
    eexists _, _; (split; [reflexivity |]); (split; [reflexivity |]);
    unfold Win32.WAIT_OBJECT_0 in *; eqb_cases; split; intros; congruence || lia.
Qed.

Lemma wait_leave_enter_balance_witness :
  exists x rest,
    [Obs _ (Win32.LeaveCriticalSection 100) tt;
     Obs _ (Win32.WaitForSingleObject 1 Win32.INFINITE) Win32.WAIT_OBJECT_0;
     Obs _ (Win32.EnterCriticalSection 100) tt]
    = [Obs _ (Win32.LeaveCriticalSection 100) tt;
       Obs _ (Win32.WaitForSingleObject 1 Win32.INFINITE) x;
       Obs _ (Win32.EnterCriticalSection 100) tt] ++ rest
    /\ existsb win32_is_cs_call rest = false
    /\ (0 = 0 <-> x = Win32.WAIT_OBJECT_0).
Proof.
  apply (wait_leave_enter_balance 1 100).
  unfold Win32.COND_WAIT, call. simpl.
  apply (runs_vis (Win32.LeaveCriticalSection 100) _ tt). simpl.
  apply (runs_vis (Win32.WaitForSingleObject 1 Win32.INFINITE) _ Win32.WAIT_OBJECT_0). simpl.
  apply (runs_vis (Win32.EnterCriticalSection 100) _ tt). simpl.
  constructor.
Defined.
End CriticalSectionProperties.
